(** * fieldservice_sale: sale orders that generate field service orders

    A shallow embedding of [fieldservice_sale/models/sale_order.py]: the
    extension of [sale.order] that infers a service location, computes the
    linked field service orders, prepares the values of a new [fsm.order],
    creates it, finds it again, guards the confirmation, and builds the
    action that shows the linked service orders.

    Records are the ORM's records; a recordset is a list of records in the
    order the ORM returns them; a many2one that is not set is [None] (the
    ORM's empty recordset, whose scalar fields read as [False]). *)

From Stdlib Require Import ZArith String Floats.
From stdpp Require Import base option list gmap strings.

Local Open Scope Z_scope.
Local Open Scope string_scope.

(** ** Exceptions and results *)

Inductive Exn : Type :=
| ValueError (msg : string)
| ValidationError (msg : string)
| KeyError (key : Z).

Inductive Res (A : Type) : Type :=
| Ok (a : A)
| Raise (e : Exn).
Arguments Ok {A} a.
Arguments Raise {A} e.

#[global] Instance Res_ret : MRet Res := λ A a, Ok a.

#[global] Instance Res_bind : MBind Res := λ A B k r,
  match r with
  | Ok a => k a
  | Raise e => Raise e
  end.

(** ** Recordsets

    [OrderedSet] semantics of the ORM: a recordset holds each record once, in
    the order of first occurrence.  Records are compared by identifier. *)

Section Recordset.
Context {A : Type} (key : A → Z).

Fixpoint unique_from (seen : list Z) (l : list A) : list A :=
  match l with
  | [] => []
  | x :: l' =>
      if decide (key x ∈ seen) then unique_from seen l'
      else x :: unique_from (key x :: seen) l'
  end.

Definition rs_unique (l : list A) : list A := unique_from [] l.

(** [a | b] on recordsets. *)
Definition rs_union (a b : list A) : list A := rs_unique (a ++ b).

(** [self.ensure_one()] *)
Definition ensure_one (self : list A) : Res A :=
  match self with
  | [r] => Ok r
  | _ => Raise (ValueError "Expected singleton")
  end.
End Recordset.

(** ** Data model *)

Definition datetime : Type := Z.

(** [fsm.template] *)
Record FsmTemplate : Type := {
  tmpl_id : Z;
  instructions : option string;
  duration : float;
  category_ids : list Z;
}.

(** [product.product]; [field_service_tracking] is a selection, [None] when
    it is not set. *)
Record Product : Type := {
  prod_id : Z;
  field_service_tracking : option string;
  fsm_order_template_id : option FsmTemplate;
}.

(** [sale.order.line] *)
Record SaleOrderLine : Type := {
  sol_id : Z;
  product_id : option Product;
}.

(** [res.partner] *)
Record Partner : Type := {
  res_partner_id : Z;
  fsm_location : bool;
  commercial_partner_id : option Z;
}.

(** [fsm.location] *)
Record FsmLocation : Type := {
  loc_id : Z;
  loc_partner_id : option Z;
  direction : option string;
}.

(** [sale.order] with the fields this module adds. *)
Record SaleOrder : Type := {
  so_id : Z;
  so_name : string;
  partner_id : option Partner;
  partner_shipping_id : option Partner;
  expected_date : option datetime;
  company_id : option Z;
  order_line : list SaleOrderLine;
  fsm_location_id : option FsmLocation;
  fsm_order_ids : list Z;
  fsm_order_count : Z;
}.

(** Reading a field through a many2one: the empty recordset gives [False]. *)
Definition sol_tracking (sol : SaleOrderLine) : option string :=
  p ← product_id sol; field_service_tracking p.

(** ** Values of a new service order *)

(** The command [(6, 0, ids)]: replace the relation by [ids]. *)
Inductive X2ManyCommand : Type :=
| Cmd_set (ids : list Z).

Record FsmOrderValues : Type := {
  v_location_id : option Z;
  v_location_directions : option string;
  v_request_early : option datetime;
  v_scheduled_date_start : option datetime;
  v_todo : string;
  v_category_ids : list X2ManyCommand;
  v_scheduled_duration : float;
  v_sale_id : Z;
  v_company_id : option Z;
}.

(** [lines.mapped("product_id.fsm_order_template_id")]: one step per name of
    the path, each giving a recordset. *)
Definition mapped_product_id (lines : list SaleOrderLine) : list Product :=
  rs_unique prod_id (omap product_id lines).

Definition mapped_fsm_order_template_id (products : list Product)
  : list FsmTemplate :=
  rs_unique tmpl_id (omap fsm_order_template_id products).

(** The body of the loop over the templates, on the variables [note],
    [hours] and [categories]. *)
Definition aggregate_step (acc : string * float * list Z) (template : FsmTemplate)
  : string * float * list Z :=
  let '(note, hours, categories) := acc in
  (note ++ default "" (instructions template),
   (hours + duration template)%float,
   rs_union (λ c, c) categories (category_ids template)).

Definition _field_create_fsm_order_prepare_values (self : list SaleOrder)
  : Res FsmOrderValues :=
  so ← ensure_one self;
  let lines :=
    filter (λ sol, sol_tracking sol = Some "sale") (order_line so) in
  let templates := mapped_fsm_order_template_id (mapped_product_id lines) in
  let '(note, hours, categories) :=
    fold_left aggregate_step templates ("", 0%float, []) in
  mret {| v_location_id := loc_id <$> fsm_location_id so;
         v_location_directions := fsm_location_id so ≫= direction;
         v_request_early := expected_date so;
         v_scheduled_date_start := expected_date so;
         v_todo := note;
         v_category_ids := [Cmd_set categories];
         v_scheduled_duration := hours;
         v_sale_id := so_id so;
         v_company_id := company_id so |}.

(** ** Search domains

    A domain is a list in prefix notation: ["|"], ["&"] and ["!"] apply to
    the terms that follow them, and the terms left at the top level are
    joined by an implicit ["&"].  A leaf is [(field, operator, value)]. *)

Inductive DomainValue : Type :=
| V_id (v : option Z)       (* an identifier, or [False] *)
| V_ids (vs : list Z).      (* a list of identifiers *)

Inductive DomainItem : Type :=
| D_or
| D_and
| D_not
| D_leaf (field : string) (operator : string) (value : DomainValue).

Section Search.
Context {R : Type}.
(** The many2one fields of the model, by name. *)
Context (read : R → string → option (option Z)).

Definition eval_leaf (r : R) (field operator : string) (value : DomainValue)
  : option bool :=
  x ← read r field;
  match value with
  | V_id v =>
      if String.eqb operator "=" then Some (bool_decide (x = v)) else None
  | V_ids vs =>
      if String.eqb operator "in" then
        Some (match x with
              | Some i => bool_decide (i ∈ vs)
              | None => false
              end)
      else None
  end.

(** One item, read from the right, on the stack of the values of the terms
    to its right. *)
Definition eval_item (r : R) (item : DomainItem) (stack : option (list bool))
  : option (list bool) :=
  st ← stack;
  match item, st with
  | D_leaf f o v, _ => b ← eval_leaf r f o v; Some (b :: st)
  | D_not, a :: st' => Some (negb a :: st')
  | D_or, a :: b :: st' => Some ((a || b) :: st')
  | D_and, a :: b :: st' => Some ((a && b) :: st')
  | _, _ => None
  end.

Definition eval_domain (r : R) (domain : list DomainItem) : option bool :=
  st ← foldr (eval_item r) (Some []) domain;
  Some (forallb (λ b, b) st).

(** [Model.search(domain)] on the table of the model, which is kept in the
    order of the model. *)
Definition search (domain : list DomainItem) (table : list R) : list R :=
  filter (λ r, eval_domain r domain = Some true) table.
End Search.

(** ** The database *)

(** [fsm.order], with the two back-references this module adds. *)
Record FsmOrder : Type := {
  fo_id : Z;
  fo_name : string;
  fo_location_id : option Z;
  fo_location_directions : option string;
  fo_request_early : option datetime;
  fo_scheduled_date_start : option datetime;
  fo_todo : string;
  fo_category_ids : list Z;
  fo_scheduled_duration : float;
  fo_sale_id : option Z;
  fo_sale_line_id : option Z;
  fo_company_id : option Z;
}.

(** What a posted message says; its markup belongs to the mail layer. *)
Inductive MessageBody : Type :=
| Field_service_order_created (fsm_order_id : Z) (fsm_order_name : string)
| Created_from (sale_id : Z) (sale_name : string).

Record Message : Type := {
  msg_model : string;
  msg_res_id : Z;
  msg_body : MessageBody;
}.

Record World : Type := {
  tbl_fsm_order : list FsmOrder;
  seq_fsm_order : Z;
  tbl_fsm_location : list FsmLocation;
  tbl_mail_message : list Message;
}.

Definition read_fsm_order (r : FsmOrder) (field : string) : option (option Z) :=
  if String.eqb field "sale_id" then Some (fo_sale_id r)
  else if String.eqb field "sale_line_id" then Some (fo_sale_line_id r)
  else None.

Definition read_fsm_location (r : FsmLocation) (field : string)
  : option (option Z) :=
  if String.eqb field "partner_id" then Some (loc_partner_id r) else None.

(** ** Methods run in the database and may raise

    When a method raises, what it had written so far is still there: undoing
    it is the transaction's work. *)

Definition M (A : Type) : Type := World → Res A * World.

#[global] Instance M_ret : MRet M := λ A a w, (Ok a, w).

#[global] Instance M_bind : MBind M := λ A B k c w,
  match c w with
  | (Ok a, w1) => k a w1
  | (Raise e, w1) => (Raise e, w1)
  end.

Definition raise {A} (e : Exn) : M A := λ w, (Raise e, w).

Definition lift_res {A} (r : Res A) : M A := λ w, (r, w).

(** [for x in xs: ...] with the loop's variables in [s]. *)
Fixpoint for_each {A S} (body : S → A → M S) (xs : list A) (s : S) : M S :=
  match xs with
  | [] => mret s
  | x :: xs' => s1 ← body s x; for_each body xs' s1
  end.

(** [d[key]] *)
Definition dict_get {V} (d : gmap Z V) (key : Z) : M V :=
  match d !! key with
  | Some v => mret v
  | None => raise (KeyError key)
  end.

Definition fsm_order_search (domain : list DomainItem) : M (list FsmOrder) :=
  λ w, (Ok (search read_fsm_order domain (tbl_fsm_order w)), w).

Definition fsm_location_search (domain : list DomainItem)
  : M (list FsmLocation) :=
  λ w, (Ok (search read_fsm_location domain (tbl_fsm_location w)), w).

Definition message_post (model : string) (res_id : Z) (body : MessageBody)
  : M unit :=
  λ w, (Ok (),
        {| tbl_fsm_order := tbl_fsm_order w;
           seq_fsm_order := seq_fsm_order w;
           tbl_fsm_location := tbl_fsm_location w;
           tbl_mail_message := tbl_mail_message w ++
             [{| msg_model := model; msg_res_id := res_id; msg_body := body |}] |}).

(** The relation a list of commands leaves, from an empty one. *)
Definition x2many_ids (commands : list X2ManyCommand) : list Z :=
  fold_left (λ _ c, match c with Cmd_set ids => ids end) commands [].

(** ** The methods of [sale.order] *)

Section SaleOrder.
(** What the rest of the application provides: the name its sequence gives
    to a new service order, the inherited methods, and the generation of
    the service orders of the lines, which [sale.order.line] owns. *)
Variable fsm_order_name : Z → string.
Variable ConfirmResult : Type.
Variable super_action_confirm : SaleOrder → M ConfirmResult.
Variable super_onchange_partner_id : SaleOrder → SaleOrder.
Variable _field_service_generation : list SaleOrderLine → M unit.

(** [self.env["fsm.order"].sudo().create(values)]; [sudo] lifts the access
    rules, which are not part of the model.  Fields that [values] leaves
    out take their default: no line reference. *)
Definition fsm_order_create (values : FsmOrderValues) : M FsmOrder :=
  λ w,
    let new_id := seq_fsm_order w in
    let record :=
      {| fo_id := new_id;
         fo_name := fsm_order_name new_id;
         fo_location_id := v_location_id values;
         fo_location_directions := v_location_directions values;
         fo_request_early := v_request_early values;
         fo_scheduled_date_start := v_scheduled_date_start values;
         fo_todo := v_todo values;
         fo_category_ids := x2many_ids (v_category_ids values);
         fo_scheduled_duration := v_scheduled_duration values;
         fo_sale_id := Some (v_sale_id values);
         fo_sale_line_id := None;
         fo_company_id := v_company_id values |} in
    (Ok record,
     {| tbl_fsm_order := tbl_fsm_order w ++ [record];
        seq_fsm_order := new_id + 1;
        tbl_fsm_location := tbl_fsm_location w;
        tbl_mail_message := tbl_mail_message w |}).

Definition _compute_fsm_order_ids (self : list SaleOrder)
  : M (list SaleOrder) :=
  for_each (λ done order,
    let orders := [] in
    found ← fsm_order_search
      [D_leaf "sale_line_id" "in" (V_ids (sol_id <$> order_line order))];
    let orders := rs_union fo_id orders found in
    found ← fsm_order_search [D_leaf "sale_id" "=" (V_id (Some (so_id order)))];
    let orders := rs_union fo_id orders found in
    let order :=
      {| so_id := so_id order;
         so_name := so_name order;
         partner_id := partner_id order;
         partner_shipping_id := partner_shipping_id order;
         expected_date := expected_date order;
         company_id := company_id order;
         order_line := order_line order;
         fsm_location_id := fsm_location_id order;
         fsm_order_ids := fo_id <$> orders;
         fsm_order_count := Z.of_nat (length (fo_id <$> orders)) |} in
    mret (done ++ [order])%list) self [].

Definition onchange_partner_id (self : SaleOrder) : M SaleOrder :=
  let self := super_onchange_partner_id self in
  let domain :=
    [D_or; D_or;
     D_leaf "partner_id" "=" (V_id (res_partner_id <$> partner_id self));
     D_leaf "partner_id" "=" (V_id (res_partner_id <$> partner_shipping_id self));
     D_leaf "partner_id" "="
       (V_id (partner_id self ≫= commercial_partner_id))] in
  let domain :=
    if from_option fsm_location false (partner_id self)
    then [D_leaf "partner_id" "=" (V_id (res_partner_id <$> partner_id self))]
    else domain in
  location_ids ← fsm_location_search domain;
  mret {| so_id := so_id self;
          so_name := so_name self;
          partner_id := partner_id self;
          partner_shipping_id := partner_shipping_id self;
          expected_date := expected_date self;
          company_id := company_id self;
          order_line := order_line self;
          fsm_location_id := head location_ids;
          fsm_order_ids := fsm_order_ids self;
          fsm_order_count := fsm_order_count self |}.

Definition _field_create_fsm_order (self : list SaleOrder)
  : M (gmap Z FsmOrder) :=
  for_each (λ result so,
    values ← lift_res (_field_create_fsm_order_prepare_values [so]);
    fsm_order ← fsm_order_create values;
    _ ← message_post "sale.order" (so_id so)
          (Field_service_order_created (fo_id fsm_order) (fo_name fsm_order));
    _ ← message_post "fsm.order" (fo_id fsm_order)
          (Created_from (so_id so) (so_name so));
    mret (<[so_id so := fsm_order]> result)) self ∅.

Definition _field_find_fsm_order (self : list SaleOrder)
  : M (gmap Z FsmOrder) :=
  fsm_orders ← fsm_order_search
    [D_leaf "sale_id" "in" (V_ids (so_id <$> self));
     D_leaf "sale_line_id" "=" (V_id None)];
  let fsm_order_mapping : gmap (option Z) FsmOrder :=
    fold_left (λ m fsm_order, <[fo_sale_id fsm_order := fsm_order]> m)
      fsm_orders ∅ in
  for_each (λ result so,
    fsm_order ←
      match fsm_order_mapping !! Some (so_id so) with
      | Some fsm_order => mret fsm_order
      | None =>
          created ← _field_create_fsm_order [so];
          dict_get created (so_id so)
      end;
    mret (<[so_id so := fsm_order]> result)) self ∅.

Definition _action_confirm (self : SaleOrder) : M ConfirmResult :=
  result ← super_action_confirm self;
  _ ← (if bool_decide
           (Exists (λ sol, sol_tracking sol ≠ Some "no") (order_line self))
       then
         _ ← (if fsm_location_id self is None
              then raise (ValidationError "FSM Location must be set")
              else mret ());
         _field_service_generation (order_line self)
       else mret ());
  mret result.
End SaleOrder.

Arguments _action_confirm {ConfirmResult} _ _ _ _.

(** ** The action that shows the service orders *)

(** What the keys of a window action hold. *)
Inductive ActionValue : Type :=
| A_str (s : string)
| A_int (z : Z)
| A_domain (domain : list DomainItem)
| A_views (views : list (Z * string)).

Section ActionView.
(** Two records of the [fieldservice] module: the window action
    [action_fsm_dash_order], as [read] returns it, and the identifier of the
    form view [fsm_order_form]. *)
Variable action_fsm_dash_order : gmap string ActionValue.
Variable fsm_order_form : Z.

(** [fsm_order_ids] is computed and not stored: reading it computes it. *)
Definition action_view_fsm_order (self : list SaleOrder)
  : M (gmap string ActionValue) :=
  self ← _compute_fsm_order_ids self;
  let fsm_orders := rs_unique (λ i, i) (self ≫= fsm_order_ids) in
  let action := action_fsm_dash_order in
  mret match fsm_orders with
       | _ :: _ :: _ =>
           <["domain" := A_domain [D_leaf "id" "in" (V_ids fsm_orders)]]> action
       | [fsm_order] =>
           <["res_id" := A_int fsm_order]>
             (<["views" := A_views [(fsm_order_form, "form")]]> action)
       | [] => {["type" := A_str "ir.actions.act_window_close"]}
       end.
End ActionView.

(** ** What the statements below speak of *)

(** The templates that a sale order collects: those of the products of its
    lines in tracking mode ["sale"], as a recordset. *)
Definition sale_templates (so : SaleOrder) : list FsmTemplate :=
  mapped_fsm_order_template_id
    (mapped_product_id
       (filter (λ sol, sol_tracking sol = Some "sale") (order_line so))).

(** The instructions of the templates, one after the other. *)
Definition notes_of (templates : list FsmTemplate) : string :=
  foldr (λ t s, default "" (instructions t) ++ s) "" templates.

(** The durations of the templates, added from the left to [0.0] in
    double precision. *)
Definition hours_of (templates : list FsmTemplate) : float :=
  fold_left (λ h t, (h + duration t)%float) templates 0%float.

(** The categories of the templates, each once. *)
Definition categories_of (templates : list FsmTemplate) : list Z :=
  rs_unique (λ c, c) (templates ≫= category_ids).

(** The service orders of a sale order that carry no line reference. *)
Definition order_level (sale_id : Z) (w : World) : list FsmOrder :=
  filter (λ r, fo_sale_id r = Some sale_id ∧ fo_sale_line_id r = None)
    (tbl_fsm_order w).

(** ** Sample records *)

Definition template_a : FsmTemplate :=
  {| tmpl_id := 1; instructions := Some "A"; duration := 1.5%float;
     category_ids := [1; 2] |}.

Definition template_b : FsmTemplate :=
  {| tmpl_id := 2; instructions := Some "B"; duration := 2%float;
     category_ids := [2; 3] |}.

Definition product_a : Product :=
  {| prod_id := 10; field_service_tracking := Some "sale";
     fsm_order_template_id := Some template_a |}.

Definition product_b : Product :=
  {| prod_id := 11; field_service_tracking := Some "sale";
     fsm_order_template_id := Some template_b |}.

Definition product_desk : Product :=
  {| prod_id := 12; field_service_tracking := Some "no";
     fsm_order_template_id := None |}.

Definition line_a : SaleOrderLine :=
  {| sol_id := 100; product_id := Some product_a |}.

Definition line_a_again : SaleOrderLine :=
  {| sol_id := 103; product_id := Some product_a |}.

Definition line_b : SaleOrderLine :=
  {| sol_id := 101; product_id := Some product_b |}.

Definition line_desk : SaleOrderLine :=
  {| sol_id := 102; product_id := Some product_desk |}.

(** A line without a product, such as a note. *)
Definition line_note : SaleOrderLine :=
  {| sol_id := 104; product_id := None |}.

(** A contact of the company 50. *)
Definition contact (is_location : bool) : Partner :=
  {| res_partner_id := 7; fsm_location := is_location;
     commercial_partner_id := Some 50 |}.

Definition location_of_company : FsmLocation :=
  {| loc_id := 30; loc_partner_id := Some 50;
     direction := Some "North gate" |}.

Definition sample_order (customer : Partner) (lines : list SaleOrderLine)
  : SaleOrder :=
  {| so_id := 1; so_name := "S00001";
     partner_id := Some customer; partner_shipping_id := Some customer;
     expected_date := Some 1700000000; company_id := Some 1;
     order_line := lines; fsm_location_id := None;
     fsm_order_ids := []; fsm_order_count := 0 |}.

Definition sample_fsm_order (id : Z) (line : option Z) : FsmOrder :=
  {| fo_id := id; fo_name := "FSO"; fo_location_id := Some 30;
     fo_location_directions := None; fo_request_early := None;
     fo_scheduled_date_start := None; fo_todo := "";
     fo_category_ids := []; fo_scheduled_duration := 0%float;
     fo_sale_id := Some 1; fo_sale_line_id := line;
     fo_company_id := Some 1 |}.

Definition sample_world (orders : list FsmOrder) : World :=
  {| tbl_fsm_order := orders; seq_fsm_order := 1 + Z.of_nat (length orders);
     tbl_fsm_location := [location_of_company]; tbl_mail_message := [] |}.

(** A stand-in for the rest of the application. *)
Definition sample_name (id : Z) : string := "FSO".
Definition sample_confirm (so : SaleOrder) : M bool := λ w, (Ok true, w).
Definition sample_onchange (so : SaleOrder) : SaleOrder := so.
Definition sample_generation (lines : list SaleOrderLine) : M unit :=
  λ w, (Ok (), w).

(** ** More of what the statements speak of *)

(** A service order is linked to a sale order by one of its lines or by the
    sale order itself. *)
Definition linked (order : SaleOrder) (fo : FsmOrder) : Prop :=
  (∃ l, fo_sale_line_id fo = Some l ∧ l ∈ sol_id <$> order_line order)
  ∨ fo_sale_id fo = Some (so_id order).

(** A sale order with its computed fields set. *)
Definition with_fsm_orders (order : SaleOrder) (ids : list Z) : SaleOrder :=
  {| so_id := so_id order;
     so_name := so_name order;
     partner_id := partner_id order;
     partner_shipping_id := partner_shipping_id order;
     expected_date := expected_date order;
     company_id := company_id order;
     order_line := order_line order;
     fsm_location_id := fsm_location_id order;
     fsm_order_ids := ids;
     fsm_order_count := Z.of_nat (length ids) |}.

(** What the computation of the linked service orders makes of a sale
    order: the sale order with, as computed fields, the identifiers of the
    service orders of the database linked to it, each once, and their
    number. *)
Definition computed (w : World) (order order' : SaleOrder) : Prop :=
  ∃ ids, order' = with_fsm_orders order ids
         ∧ NoDup ids
         ∧ ∀ i, i ∈ ids
                ↔ ∃ fo, fo ∈ tbl_fsm_order w ∧ fo_id fo = i ∧ linked order fo.

(** A sale order with other lines. *)
Definition with_lines (order : SaleOrder) (lines : list SaleOrderLine)
  : SaleOrder :=
  {| so_id := so_id order;
     so_name := so_name order;
     partner_id := partner_id order;
     partner_shipping_id := partner_shipping_id order;
     expected_date := expected_date order;
     company_id := company_id order;
     order_line := lines;
     fsm_location_id := fsm_location_id order;
     fsm_order_ids := fsm_order_ids order;
     fsm_order_count := fsm_order_count order |}.

(** The service order that the values of a sale order describe. *)
Definition created_from (so : SaleOrder) (fo : FsmOrder) : Prop :=
  fo_location_id fo = loc_id <$> fsm_location_id so
  ∧ fo_location_directions fo = fsm_location_id so ≫= direction
  ∧ fo_request_early fo = expected_date so
  ∧ fo_scheduled_date_start fo = expected_date so
  ∧ fo_todo fo = notes_of (sale_templates so)
  ∧ fo_category_ids fo = categories_of (sale_templates so)
  ∧ fo_scheduled_duration fo = hours_of (sale_templates so)
  ∧ fo_sale_id fo = Some (so_id so)
  ∧ fo_sale_line_id fo = None
  ∧ fo_company_id fo = company_id so.

(** The two messages that link a sale order and its new service order. *)
Definition cross_reference (so : SaleOrder) (fo : FsmOrder) : list Message :=
  [{| msg_model := "sale.order"; msg_res_id := so_id so;
      msg_body := Field_service_order_created (fo_id fo) (fo_name fo) |};
   {| msg_model := "fsm.order"; msg_res_id := fo_id fo;
      msg_body := Created_from (so_id so) (so_name so) |}].

(** The three shapes of the action that shows the service orders [ids]. *)
Definition action_for (action : gmap string ActionValue) (form : Z)
    (ids : list Z) : gmap string ActionValue :=
  match ids with
  | [] => {["type" := A_str "ir.actions.act_window_close"]}
  | [i] => <["res_id" := A_int i]> (<["views" := A_views [(form, "form")]]> action)
  | _ => <["domain" := A_domain [D_leaf "id" "in" (V_ids ids)]]> action
  end.

(** ** More sample records *)

Definition located_order (lines : list SaleOrderLine) : SaleOrder :=
  {| so_id := 1; so_name := "S00001";
     partner_id := Some (contact false);
     partner_shipping_id := Some (contact false);
     expected_date := Some 1700000000; company_id := Some 1;
     order_line := lines; fsm_location_id := Some location_of_company;
     fsm_order_ids := []; fsm_order_count := 0 |}.

Definition other_order (lines : list SaleOrderLine) : SaleOrder :=
  {| so_id := 2; so_name := "S00002";
     partner_id := Some (contact false);
     partner_shipping_id := Some (contact false);
     expected_date := None; company_id := Some 1;
     order_line := lines; fsm_location_id := None;
     fsm_order_ids := []; fsm_order_count := 0 |}.

Definition sample_action : gmap string ActionValue :=
  <["res_model" := A_str "fsm.order"]>
    {["type" := A_str "ir.actions.act_window"]}.

Definition sample_form : Z := 77.

(** ** Recordsets: keep the first occurrence of each identifier *)

Section RecordsetFacts.
Context {A : Type} (key : A → Z).

Lemma unique_from_ext (seen1 seen2 : list Z) (l : list A) :
  (∀ k, k ∈ seen1 ↔ k ∈ seen2) →
  unique_from key seen1 l = unique_from key seen2 l.
Proof.
  revert seen1 seen2.
  induction l as [|x l IH]; intros seen1 seen2 Hseen; simpl; [done|].
  destruct (decide (key x ∈ seen1)) as [H1|H1],
           (decide (key x ∈ seen2)) as [H2|H2].
  - by apply IH.
  - destruct H2. by apply Hseen.
  - destruct H1. by apply Hseen.
  - f_equal. apply IH. intros k. by rewrite !elem_of_cons, Hseen.
Qed.

Lemma unique_from_app (seen : list Z) (a b : list A) :
  unique_from key seen (a ++ b)
  = (unique_from key seen a
     ++ unique_from key ((key <$> a) ++ seen) b)%list.
Proof.
  revert seen.
  induction a as [|x a IH]; intros seen; simpl; [done|].
  destruct (decide (key x ∈ seen)) as [Hx|Hx].
  - rewrite IH. f_equal. apply unique_from_ext. intros k.
    rewrite elem_of_cons, !elem_of_app. intuition congruence.
  - simpl. f_equal. rewrite IH. f_equal. apply unique_from_ext.
    intros k. rewrite !elem_of_cons, !elem_of_app, elem_of_cons.
    intuition congruence.
Qed.

Lemma elem_of_unique_from (seen : list Z) (l : list A) (x : A) :
  x ∈ unique_from key seen l → x ∈ l ∧ key x ∉ seen.
Proof.
  revert seen.
  induction l as [|y l IH]; intros seen; simpl.
  - by intros ?%elem_of_nil.
  - destruct (decide (key y ∈ seen)) as [Hy|Hy].
    + intros [? ?]%IH. split; [by right|done].
    + intros [->|[? Hn]%IH]%elem_of_cons.
      * split; [by left|done].
      * split; [by right|]. intros ?. apply Hn. by right.
Qed.

Lemma keys_unique_from (seen : list Z) (l : list A) (k : Z) :
  k ∈ key <$> unique_from key seen l ↔ k ∈ key <$> l ∧ k ∉ seen.
Proof.
  revert seen.
  induction l as [|y l IH]; intros seen; simpl.
  - split; [by intros ?%elem_of_nil | by intros [?%elem_of_nil _]].
  - destruct (decide (key y ∈ seen)) as [Hy|Hy].
    + rewrite IH, elem_of_cons. intuition congruence.
    + rewrite fmap_cons, !elem_of_cons, IH, elem_of_cons.
      destruct (decide (k = key y)); intuition congruence.
Qed.

Lemma NoDup_unique_from (seen : list Z) (l : list A) :
  NoDup (key <$> unique_from key seen l).
Proof.
  revert seen.
  induction l as [|y l IH]; intros seen; simpl; [constructor|].
  destruct (decide (key y ∈ seen)) as [Hy|Hy]; [done|].
  rewrite fmap_cons. constructor; [|done].
  rewrite keys_unique_from, elem_of_cons. intuition congruence.
Qed.

Lemma unique_from_id (seen : list Z) (l : list A) :
  NoDup (key <$> l) → (∀ x, x ∈ l → key x ∉ seen) →
  unique_from key seen l = l.
Proof.
  revert seen.
  induction l as [|y l IH]; intros seen Hnd Hseen; simpl; [done|].
  rewrite fmap_cons in Hnd. apply NoDup_cons in Hnd as [Hy Hnd].
  destruct (decide (key y ∈ seen)) as [Hin|_].
  { exfalso. apply (Hseen y); [by left|done]. }
  f_equal. apply IH; [done|].
  intros x Hx [Heq|?]%elem_of_cons.
  - apply Hy. rewrite <- Heq. by apply list_elem_of_fmap_2.
  - by apply (Hseen x); [right|].
Qed.

Lemma rs_unique_idemp (l : list A) :
  rs_unique key (rs_unique key l) = rs_unique key l.
Proof.
  apply unique_from_id; [apply NoDup_unique_from|].
  intros x _ ?%elem_of_nil. done.
Qed.

(** The union with what a union gave is the union of the whole. *)
Lemma rs_union_unique_l (a b : list A) :
  rs_union key (rs_unique key a) b = rs_unique key (a ++ b).
Proof.
  unfold rs_union, rs_unique.
  rewrite !unique_from_app. f_equal; [apply rs_unique_idemp|].
  apply unique_from_ext. intros k.
  rewrite !elem_of_app, keys_unique_from, !elem_of_nil. tauto.
Qed.

Lemma elem_of_rs_union (a b : list A) (x : A) :
  x ∈ rs_union key a b → x ∈ a ∨ x ∈ b.
Proof.
  unfold rs_union, rs_unique. intros [H _]%elem_of_unique_from.
  by apply elem_of_app.
Qed.

Lemma keys_rs_union (a b : list A) (k : Z) :
  k ∈ key <$> rs_union key a b ↔ k ∈ key <$> a ∨ k ∈ key <$> b.
Proof.
  unfold rs_union, rs_unique.
  rewrite keys_unique_from, fmap_app, elem_of_app.
  split; [intuition congruence|]. intros H. split; [done|]. by intros ?%elem_of_nil.
Qed.
End RecordsetFacts.

(** ** The values of a new service order *)

Lemma string_app_assoc (a b c : string) : (a ++ b) ++ c = a ++ (b ++ c).
Proof.
  induction a as [|ch a IH]; [reflexivity|].
  change (String ch ((a ++ b) ++ c) = String ch (a ++ (b ++ c))).
  by rewrite IH.
Qed.

Lemma string_app_empty_r (a : string) : a ++ "" = a.
Proof.
  induction a as [|ch a IH]; [reflexivity|].
  change (String ch (a ++ "") = String ch a).
  by rewrite IH.
Qed.

(** The loop, from any state of its three variables. *)
Lemma aggregate_fold (templates : list FsmTemplate)
    (note : string) (hours : float) (categories : list Z) :
  fold_left aggregate_step templates
    (note, hours, rs_unique (λ c, c) categories)
  = (note ++ notes_of templates,
     fold_left (λ h t, (h + duration t)%float) templates hours,
     rs_unique (λ c, c) (categories ++ (templates ≫= category_ids))).
Proof.
  revert note hours categories.
  induction templates as [|t ts IH]; intros note hours categories.
  - simpl. by rewrite string_app_empty_r, app_nil_r.
  - cbn [fold_left aggregate_step].
    rewrite rs_union_unique_l, IH. cbn [notes_of foldr mbind list_bind].
    by rewrite string_app_assoc, (assoc_L (++)%list).
Qed.

Lemma aggregate_templates (templates : list FsmTemplate) :
  fold_left aggregate_step templates ("", 0%float, [])
  = (notes_of templates, hours_of templates, categories_of templates).
Proof. apply (aggregate_fold templates "" 0%float []). Qed.

Lemma prepare_values_one (so : SaleOrder) :
  _field_create_fsm_order_prepare_values [so]
  = Ok {| v_location_id := loc_id <$> fsm_location_id so;
          v_location_directions := fsm_location_id so ≫= direction;
          v_request_early := expected_date so;
          v_scheduled_date_start := expected_date so;
          v_todo := notes_of (sale_templates so);
          v_category_ids := [Cmd_set (categories_of (sale_templates so))];
          v_scheduled_duration := hours_of (sale_templates so);
          v_sale_id := so_id so;
          v_company_id := company_id so |}.
Proof.
  unfold _field_create_fsm_order_prepare_values. cbn [ensure_one mbind Res_bind].
  fold (sale_templates so). by rewrite aggregate_templates.
Qed.

Lemma categories_of_spec (templates : list FsmTemplate) (c : Z) :
  c ∈ categories_of templates
  ↔ ∃ t, t ∈ templates ∧ c ∈ category_ids t.
Proof.
  unfold categories_of, rs_unique.
  rewrite <- (list_fmap_id (unique_from _ _ _)).
  rewrite (keys_unique_from (λ c, c)), list_fmap_id, list_elem_of_bind.
  rewrite elem_of_nil. split.
  - intros [(t & ? & ?) _]. eauto.
  - intros (t & ? & ?). split; [eauto|tauto].
Qed.

Lemma NoDup_categories_of (templates : list FsmTemplate) :
  NoDup (categories_of templates).
Proof.
  unfold categories_of, rs_unique.
  rewrite <- (list_fmap_id (unique_from _ _ _)).
  apply (NoDup_unique_from (λ c, c)).
Qed.

(** Two lines on two products with two templates give the two templates,
    in the order of the lines. *)
Lemma sale_templates_two (so : SaleOrder) (l1 l2 : SaleOrderLine)
    (p1 p2 : Product) (t1 t2 : FsmTemplate) :
  order_line so = [l1; l2] →
  product_id l1 = Some p1 → product_id l2 = Some p2 →
  field_service_tracking p1 = Some "sale" →
  field_service_tracking p2 = Some "sale" →
  fsm_order_template_id p1 = Some t1 → fsm_order_template_id p2 = Some t2 →
  prod_id p1 ≠ prod_id p2 → tmpl_id t1 ≠ tmpl_id t2 →
  sale_templates so = [t1; t2].
Proof.
  intros Hl Hp1 Hp2 Hm1 Hm2 Ht1 Ht2 Hp Ht.
  unfold sale_templates. rewrite Hl.
  rewrite !filter_cons_True, filter_nil
    by (unfold sol_tracking; rewrite ?Hp1, ?Hp2; done).
  unfold mapped_product_id. cbn [omap list_omap]. rewrite Hp1, Hp2.
  unfold rs_unique. cbn [unique_from].
  rewrite decide_False by (by intros ?%elem_of_nil).
  rewrite decide_False
    by (rewrite elem_of_cons, elem_of_nil; intuition congruence).
  unfold mapped_fsm_order_template_id. cbn [omap list_omap].
  rewrite Ht1, Ht2. unfold rs_unique. cbn [unique_from].
  rewrite decide_False by (by intros ?%elem_of_nil).
  rewrite decide_False
    by (rewrite elem_of_cons, elem_of_nil; intuition congruence).
  done.
Qed.


(** C4: the value record aggregates over the templates of the lines whose
    tracking mode is ["sale"], a recordset in the order of the lines: its
    notes are the instructions of the templates one after the other (the
    empty string for a template without any), its hours are the durations
    added up, and its categories are those of all the templates, each
    once.  Two such lines whose templates last 1.5 and 2.0 hours and say
    ["A"] and ["B"] give 3.5 hours and the notes ["AB"]. *)
Theorem prepare_values_aggregates (so : SaleOrder) :
  ∃ v : FsmOrderValues,
    _field_create_fsm_order_prepare_values [so] = Ok v
    ∧ v_todo v = notes_of (sale_templates so)
    ∧ v_scheduled_duration v = hours_of (sale_templates so)
    ∧ v_category_ids v = [Cmd_set (categories_of (sale_templates so))]
    ∧ NoDup (categories_of (sale_templates so))
    ∧ (∀ c, c ∈ categories_of (sale_templates so)
            ↔ ∃ t, t ∈ sale_templates so ∧ c ∈ category_ids t)
    ∧ (∀ (l1 l2 : SaleOrderLine) (p1 p2 : Product) (t1 t2 : FsmTemplate),
         order_line so = [l1; l2] →
         product_id l1 = Some p1 → product_id l2 = Some p2 →
         field_service_tracking p1 = Some "sale" →
         field_service_tracking p2 = Some "sale" →
         fsm_order_template_id p1 = Some t1 →
         fsm_order_template_id p2 = Some t2 →
         prod_id p1 ≠ prod_id p2 → tmpl_id t1 ≠ tmpl_id t2 →
         instructions t1 = Some "A" → instructions t2 = Some "B" →
         duration t1 = 1.5%float → duration t2 = 2%float →
         v_scheduled_duration v = 3.5%float ∧ v_todo v = "AB").
Proof.
  eexists. split; [apply prepare_values_one|].
  cbn [v_todo v_scheduled_duration v_category_ids].
  split; [done|]. split; [done|]. split; [done|].
  split; [apply NoDup_categories_of|].
  split; [intros c; apply categories_of_spec|].
  intros l1 l2 p1 p2 t1 t2 Hl Hp1 Hp2 Hm1 Hm2 Ht1 Ht2 Hp Ht Hi1 Hi2 Hd1 Hd2.
  rewrite (sale_templates_two so l1 l2 p1 p2 t1 t2) by done.
  unfold hours_of, notes_of. cbn [fold_left foldr].
  by rewrite Hd1, Hd2, Hi1, Hi2.
Qed.

(** C5: the value record carries the order's service location and the
    directions of that location, the order's expected date as both the
    earliest request and the scheduled start, the aggregated notes,
    categories and hours, the order's identifier and its company; building
    it leaves the database as it was. *)
Theorem prepare_values_fields (so : SaleOrder) :
  ∃ v : FsmOrderValues,
    _field_create_fsm_order_prepare_values [so] = Ok v
    ∧ v_location_id v = loc_id <$> fsm_location_id so
    ∧ v_location_directions v = fsm_location_id so ≫= direction
    ∧ v_request_early v = expected_date so
    ∧ v_scheduled_date_start v = expected_date so
    ∧ v_todo v = notes_of (sale_templates so)
    ∧ v_category_ids v = [Cmd_set (categories_of (sale_templates so))]
    ∧ v_scheduled_duration v = hours_of (sale_templates so)
    ∧ v_sale_id v = so_id so
    ∧ v_company_id v = company_id so
    ∧ ∀ w : World,
        lift_res (_field_create_fsm_order_prepare_values [so]) w = (Ok v, w).
Proof.
  eexists. split; [apply prepare_values_one|].
  repeat split. intros w. unfold lift_res. by rewrite prepare_values_one.
Qed.


(** ** What the domains of this module select *)

Lemma domain_partner_is (loc : FsmLocation) (v : option Z) :
  eval_domain read_fsm_location loc [D_leaf "partner_id" "=" (V_id v)]
  = Some true
  ↔ loc_partner_id loc = v.
Proof.
  cbn. rewrite andb_true_r. split.
  - intros [= H]. by apply bool_decide_eq_true in H.
  - intros H. f_equal. by apply bool_decide_eq_true.
Qed.

Lemma domain_partner_any (loc : FsmLocation) (a b c : option Z) :
  eval_domain read_fsm_location loc
    [D_or; D_or;
     D_leaf "partner_id" "=" (V_id a);
     D_leaf "partner_id" "=" (V_id b);
     D_leaf "partner_id" "=" (V_id c)]
  = Some true
  ↔ loc_partner_id loc = a ∨ loc_partner_id loc = b ∨ loc_partner_id loc = c.
Proof.
  cbn. rewrite andb_true_r. split.
  - intros [= H]. apply orb_true_iff in H as [H|H].
    + apply orb_true_iff in H as [H|H]; apply bool_decide_eq_true in H; auto.
    + apply bool_decide_eq_true in H. auto.
  - intros H. f_equal. rewrite !orb_true_iff, !bool_decide_eq_true. tauto.
Qed.

Lemma domain_sale_line_in (r : FsmOrder) (ids : list Z) :
  eval_domain read_fsm_order r [D_leaf "sale_line_id" "in" (V_ids ids)]
  = Some true
  ↔ ∃ l, fo_sale_line_id r = Some l ∧ l ∈ ids.
Proof.
  cbn. rewrite andb_true_r. destruct (fo_sale_line_id r) as [l|]; split.
  - intros [= H]. apply bool_decide_eq_true in H. eauto.
  - intros (l' & [= <-] & H). f_equal. by apply bool_decide_eq_true.
  - done.
  - by intros (l' & ? & _).
Qed.

Lemma domain_sale_is (r : FsmOrder) (id : Z) :
  eval_domain read_fsm_order r [D_leaf "sale_id" "=" (V_id (Some id))]
  = Some true
  ↔ fo_sale_id r = Some id.
Proof.
  cbn. rewrite andb_true_r. split.
  - intros [= H]. by apply bool_decide_eq_true in H.
  - intros H. f_equal. by apply bool_decide_eq_true.
Qed.

Lemma domain_order_level (r : FsmOrder) (ids : list Z) :
  eval_domain read_fsm_order r
    [D_leaf "sale_id" "in" (V_ids ids); D_leaf "sale_line_id" "=" (V_id None)]
  = Some true
  ↔ (∃ s, fo_sale_id r = Some s ∧ s ∈ ids) ∧ fo_sale_line_id r = None.
Proof.
  cbn. rewrite andb_true_r. destruct (fo_sale_id r) as [s|]; split.
  - intros [= H]. apply andb_true_iff in H as [H1 H2].
    apply bool_decide_eq_true in H1, H2. eauto.
  - intros [(s' & [= <-] & H1) H2]. f_equal.
    apply andb_true_iff. by rewrite !bool_decide_eq_true.
  - done.
  - by intros [(s' & ? & _) _].
Qed.

Lemma head_filter_None {A} (P : A → Prop) `{Pdec : !∀ x, Decision (P x)}
    (l : list A) :
  head (filter P l) = None ↔ ∀ x, x ∈ l → ¬ P x.
Proof.
  rewrite head_None. split.
  - intros H x Hx HP. by apply (filter_nil_not_elem_of P l x).
  - intros H. induction l as [|y l IH]; [done|].
    rewrite filter_cons_False by (apply H; by left).
    apply IH. intros x ?. apply H. by right.
Qed.

Lemma head_filter_Some {A} (P : A → Prop) `{Pdec : !∀ x, Decision (P x)}
    (l : list A) (x : A) :
  head (filter P l) = Some x → x ∈ l ∧ P x.
Proof.
  intros H. apply head_Some_elem_of in H.
  apply list_elem_of_filter in H. tauto.
Qed.

(** ** The service location of the customer *)

Lemma search_partner_is (v : option Z) (table : list FsmLocation) :
  search read_fsm_location [D_leaf "partner_id" "=" (V_id v)] table
  = filter (λ l, loc_partner_id l = v) table.
Proof. apply list_filter_iff. intros l. apply domain_partner_is. Qed.

Lemma search_partner_any (a b c : option Z) (table : list FsmLocation) :
  search read_fsm_location
    [D_or; D_or;
     D_leaf "partner_id" "=" (V_id a);
     D_leaf "partner_id" "=" (V_id b);
     D_leaf "partner_id" "=" (V_id c)] table
  = filter (λ l, loc_partner_id l = a ∨ loc_partner_id l = b
                 ∨ loc_partner_id l = c) table.
Proof. apply list_filter_iff. intros l. apply domain_partner_any. Qed.

Section Onchange.
Variable super_onchange_partner_id : SaleOrder → SaleOrder.

Local Abbreviation onchange := (onchange_partner_id super_onchange_partner_id).

(** C6: when the customer of the order, as the inherited customer-change
    logic leaves it, is itself flagged as a service location, only the
    locations that this very customer owns are candidates, whatever the
    shipping address and the commercial entity own: the first of them
    becomes the service location, and when there is none the service
    location is cleared. *)
Theorem onchange_partner_service_location
    (self : SaleOrder) (w : World) (customer : Partner) :
  partner_id (super_onchange_partner_id self) = Some customer →
  fsm_location customer = true →
  ∃ so' : SaleOrder,
    onchange self w = (Ok so', w)
    ∧ fsm_location_id so'
      = head (filter (λ l, loc_partner_id l = Some (res_partner_id customer))
                (tbl_fsm_location w))
    ∧ (∀ l, fsm_location_id so' = Some l →
         l ∈ tbl_fsm_location w
         ∧ loc_partner_id l = Some (res_partner_id customer))
    ∧ ((∀ l, l ∈ tbl_fsm_location w →
          loc_partner_id l ≠ Some (res_partner_id customer)) →
       fsm_location_id so' = None).
Proof.
  intros Hcustomer Hflag. eexists. split.
  - unfold onchange_partner_id. rewrite Hcustomer. cbn [from_option].
    rewrite Hflag. unfold mbind, M_bind, fsm_location_search.
    rewrite search_partner_is. reflexivity.
  - cbn [fsm_location_id fmap option_fmap option_map]. split; [done|]. split.
    + intros l Hl. by apply head_filter_Some in Hl.
    + intros Hnone. by apply head_filter_None.
Qed.

(** C7: when the customer of the order, as the inherited customer-change
    logic leaves it, is not flagged as a service location, the candidates
    are the locations owned by the customer, by the shipping address, or by
    the commercial entity of the customer; the first candidate in the
    order of the search becomes the service location, and when there is
    none the service location is cleared. *)
Theorem onchange_partner_any_of_three (self : SaleOrder) (w : World) :
  let so := super_onchange_partner_id self in
  let customer := res_partner_id <$> partner_id so in
  let shipping := res_partner_id <$> partner_shipping_id so in
  let commercial := partner_id so ≫= commercial_partner_id in
  from_option fsm_location false (partner_id so) = false →
  ∃ so' : SaleOrder,
    onchange self w = (Ok so', w)
    ∧ fsm_location_id so'
      = head (filter (λ l, loc_partner_id l = customer
                           ∨ loc_partner_id l = shipping
                           ∨ loc_partner_id l = commercial)
                (tbl_fsm_location w))
    ∧ (∀ l, fsm_location_id so' = Some l →
         l ∈ tbl_fsm_location w
         ∧ (loc_partner_id l = customer ∨ loc_partner_id l = shipping
            ∨ loc_partner_id l = commercial))
    ∧ (fsm_location_id so' = None
       ↔ ∀ l, l ∈ tbl_fsm_location w →
           ¬ (loc_partner_id l = customer ∨ loc_partner_id l = shipping
              ∨ loc_partner_id l = commercial)).
Proof.
  intros so customer shipping commercial Hflag.
  subst so customer shipping commercial. eexists. split.
  - unfold onchange_partner_id. cbv zeta. rewrite Hflag. cbv iota.
    unfold mbind, M_bind, fsm_location_search. cbv beta.
    rewrite search_partner_any. reflexivity.
  - cbn [fsm_location_id]. split; [done|]. split.
    + intros l Hl. by apply head_filter_Some in Hl.
    + apply head_filter_None.
Qed.

End Onchange.

(** ** The service orders linked to a sale order *)

Lemma search_linked (order : SaleOrder) (table : list FsmOrder) (fo : FsmOrder) :
  fo ∈ (search read_fsm_order
          [D_leaf "sale_line_id" "in" (V_ids (sol_id <$> order_line order))]
          table
        ++ search read_fsm_order
             [D_leaf "sale_id" "=" (V_id (Some (so_id order)))] table)%list
  ↔ fo ∈ table
    ∧ ((∃ l, fo_sale_line_id fo = Some l ∧ l ∈ sol_id <$> order_line order)
       ∨ fo_sale_id fo = Some (so_id order)).
Proof.
  unfold search.
  rewrite elem_of_app, !list_elem_of_filter,
    domain_sale_line_in, domain_sale_is.
  tauto.
Qed.

(** C8: the computed service orders of a sale order are those whose line
    reference is one of the order's lines together with those whose sale
    reference is the order, each once, and the computed count is their
    number; so a service order with a line reference and one without,
    both referring to the sale order, are both among them.  The
    computation leaves the database as it was, and running it again on
    its own result gives that result again. *)
Theorem compute_fsm_order_ids_union (order : SaleOrder) (w : World) :
  ∃ order' : SaleOrder,
    _compute_fsm_order_ids [order] w = (Ok [order'], w)
    ∧ (∀ i, i ∈ fsm_order_ids order'
            ↔ ∃ fo, fo ∈ tbl_fsm_order w ∧ fo_id fo = i
                ∧ ((∃ l, fo_sale_line_id fo = Some l
                         ∧ l ∈ sol_id <$> order_line order)
                   ∨ fo_sale_id fo = Some (so_id order)))
    ∧ NoDup (fsm_order_ids order')
    ∧ fsm_order_count order' = Z.of_nat (length (fsm_order_ids order'))
    ∧ (∀ a b l, a ∈ tbl_fsm_order w → b ∈ tbl_fsm_order w →
         fo_sale_id a = Some (so_id order) → fo_sale_line_id a = Some l →
         fo_sale_id b = Some (so_id order) → fo_sale_line_id b = None →
         fo_id a ∈ fsm_order_ids order' ∧ fo_id b ∈ fsm_order_ids order')
    ∧ _compute_fsm_order_ids [order'] w = (Ok [order'], w).
Proof.
  assert (Hids : ∀ i,
    i ∈ fo_id <$> rs_union fo_id (rs_union fo_id []
          (search read_fsm_order
             [D_leaf "sale_line_id" "in" (V_ids (sol_id <$> order_line order))]
             (tbl_fsm_order w)))
        (search read_fsm_order
           [D_leaf "sale_id" "=" (V_id (Some (so_id order)))]
           (tbl_fsm_order w))
    ↔ ∃ fo, fo ∈ tbl_fsm_order w ∧ fo_id fo = i
        ∧ ((∃ l, fo_sale_line_id fo = Some l
                 ∧ l ∈ sol_id <$> order_line order)
           ∨ fo_sale_id fo = Some (so_id order))).
  { intros i. unfold rs_union at 2. rewrite app_nil_l, rs_union_unique_l.
    unfold rs_unique. rewrite keys_unique_from, list_elem_of_fmap, elem_of_nil.
    split.
    - intros [(fo & -> & Hfo) _]. apply search_linked in Hfo.
      exists fo. tauto.
    - intros (fo & Hfo & <- & Hlink). split; [|tauto].
      exists fo. split; [done|]. apply search_linked. tauto. }
  eexists. split; [reflexivity|].
  cbn [fsm_order_ids fsm_order_count so_id order_line].
  split; [exact Hids|]. split; [apply NoDup_unique_from|]. split; [done|].
  split; [|reflexivity].
  intros a b l Ha Hb Hsa Hla Hsb Hlb. split; apply Hids; eauto 6.
Qed.

(** ** Creating the service order of a sale order *)

Section Create.
Variable fsm_order_name : Z → string.

Local Abbreviation create := (_field_create_fsm_order fsm_order_name).
Local Abbreviation find := (_field_find_fsm_order fsm_order_name).

(** What creating the service order of one sale order does. *)
Lemma create_fsm_order_one (so : SaleOrder) (w : World) :
  ∃ (fo : FsmOrder) (w' : World),
    create [so] w = (Ok {[so_id so := fo]}, w')
    ∧ tbl_fsm_order w' = (tbl_fsm_order w ++ [fo])%list
    ∧ tbl_fsm_location w' = tbl_fsm_location w
    ∧ fo_id fo = seq_fsm_order w
    ∧ fo_sale_id fo = Some (so_id so)
    ∧ fo_sale_line_id fo = None
    ∧ fo_todo fo = notes_of (sale_templates so)
    ∧ fo_scheduled_duration fo = hours_of (sale_templates so)
    ∧ fo_category_ids fo = categories_of (sale_templates so).
Proof.
  eexists _, _. split.
  - unfold _field_create_fsm_order. cbn [for_each].
    unfold mbind, M_bind, lift_res. rewrite prepare_values_one.
    cbn [fsm_order_create message_post mret M_ret].
    rewrite insert_empty. reflexivity.
  - cbn. done.
Qed.

(** The loop of the creation, from any state of its dictionary. *)
Lemma create_fsm_order_loop (self : list SaleOrder)
    (result : gmap Z FsmOrder) (w : World) :
  ∃ (m : gmap Z FsmOrder) (w' : World),
    for_each (λ result so,
      values ← lift_res (_field_create_fsm_order_prepare_values [so]);
      fsm_order ← fsm_order_create fsm_order_name values;
      _ ← message_post "sale.order" (so_id so)
            (Field_service_order_created (fo_id fsm_order) (fo_name fsm_order));
      _ ← message_post "fsm.order" (fo_id fsm_order)
            (Created_from (so_id so) (so_name so));
      mret (<[so_id so := fsm_order]> result)) self result w
    = (Ok m, w').
Proof.
  revert result w. induction self as [|so self IH]; intros result w.
  - by eexists _, _.
  - cbn [for_each]. unfold mbind at 1. unfold M_bind at 1.
    unfold mbind at 1. unfold M_bind at 1. unfold lift_res.
    rewrite prepare_values_one.
    cbn [fsm_order_create message_post mret M_ret mbind M_bind].
    apply IH.
Qed.

(** C9: building the values needs exactly one sale order: on a recordset
    of any other size it raises, on a recordset of one it never does; and
    the creation of the service orders, which hands over the sale orders of
    any recordset one at a time, never raises. *)
Theorem prepare_values_ensure_one (self : list SaleOrder) :
  (length self ≠ 1%nat →
     _field_create_fsm_order_prepare_values self
     = Raise (ValueError "Expected singleton"))
  ∧ (length self = 1%nat →
     ∃ v, _field_create_fsm_order_prepare_values self = Ok v)
  ∧ (∀ w, ∃ m w', create self w = (Ok m, w')).
Proof.
  split; [|split].
  - destruct self as [|so [|so' self]]; simpl; done.
  - destruct self as [|so [|so' self]]; simpl; try done.
    intros _. eexists. apply prepare_values_one.
  - intros w. apply create_fsm_order_loop.
Qed.


(** ** Finding the service order of a sale order, or creating it *)

Lemma search_order_level (so : SaleOrder) (w : World) :
  search read_fsm_order
    [D_leaf "sale_id" "in" (V_ids (so_id <$> [so]));
     D_leaf "sale_line_id" "=" (V_id None)]
    (tbl_fsm_order w)
  = order_level (so_id so) w.
Proof.
  apply list_filter_iff. intros r. rewrite domain_order_level.
  cbn [fmap list_fmap]. split.
  - intros [(s & Hs & Hin) Hl]. apply list_elem_of_singleton in Hin.
    by subst s.
  - intros [Hs Hl]. split; [|done]. exists (so_id so). split; [done|].
    by apply list_elem_of_singleton.
Qed.

Lemma order_level_sale (sale_id : Z) (w : World) (r : FsmOrder) :
  r ∈ order_level sale_id w →
  r ∈ tbl_fsm_order w ∧ fo_sale_id r = Some sale_id ∧ fo_sale_line_id r = None.
Proof. unfold order_level. rewrite list_elem_of_filter. tauto. Qed.

(** The dictionary of the found service orders, by sale order: a later one
    takes the place of an earlier one. *)
Lemma mapping_lookup (l : list FsmOrder) (m : gmap (option Z) FsmOrder)
    (k : Z) :
  (∀ r, r ∈ l → fo_sale_id r = Some k) →
  fold_left (λ m fsm_order, <[fo_sale_id fsm_order := fsm_order]> m) l m
    !! Some k
  = match last l with
    | Some r => Some r
    | None => m !! Some k
    end.
Proof.
  revert m. induction l as [|r l IH]; intros m Hl; [done|].
  cbn [fold_left]. rewrite IH by (intros r' ?; apply Hl; by right).
  rewrite last_cons. destruct (last l); [done|].
  rewrite (Hl r) by (by left). apply lookup_insert_eq.
Qed.

(** A sale order that has a service order of its own gets the last of
    them in the order of the search, and nothing is written. *)
Lemma find_fsm_order_found (so : SaleOrder) (w : World) (r : FsmOrder) :
  last (order_level (so_id so) w) = Some r →
  find [so] w = (Ok {[so_id so := r]}, w).
Proof.
  intros Hlast.
  unfold _field_find_fsm_order, mbind, M_bind, fsm_order_search.
  cbv beta iota. rewrite search_order_level. cbn [for_each].
  rewrite mapping_lookup
    by (intros r' Hr'; apply order_level_sale in Hr'; tauto).
  rewrite Hlast.
  cbn. by rewrite insert_empty.
Qed.

(** A sale order that has none gets a new one. *)
Lemma find_fsm_order_created (so : SaleOrder) (w : World) :
  order_level (so_id so) w = [] →
  ∃ (fo : FsmOrder) (w' : World),
    find [so] w = (Ok {[so_id so := fo]}, w')
    ∧ tbl_fsm_order w' = (tbl_fsm_order w ++ [fo])%list
    ∧ order_level (so_id so) w' = [fo].
Proof.
  intros Hnone.
  destruct (create_fsm_order_one so w)
    as (fo & w' & Hrun & Htbl & _ & _ & Hsale & Hline & _).
  exists fo, w'. split; [|split; [done|]].
  - unfold _field_find_fsm_order, mbind, M_bind, fsm_order_search.
    cbv beta iota. rewrite search_order_level, Hnone. cbn [for_each fold_left].
    rewrite lookup_empty. fold (@mbind M _). unfold mbind, M_bind.
    rewrite Hrun. unfold dict_get. rewrite lookup_singleton_eq.
    cbn. by rewrite insert_empty.
  - unfold order_level in *. rewrite Htbl, filter_app, Hnone.
    by rewrite filter_cons_True, filter_nil.
Qed.

(** Two calls in a row, from any database: the same service order both
    times, at most one record stored by the first call and none by the
    second, and afterwards as many service orders of its own as before, or
    one if there was none. *)
Lemma find_fsm_order_twice (so : SaleOrder) (w : World) :
  ∃ (fo : FsmOrder) (w1 : World),
    find [so] w = (Ok {[so_id so := fo]}, w1)
    ∧ find [so] w1 = (Ok {[so_id so := fo]}, w1)
    ∧ (tbl_fsm_order w1 = tbl_fsm_order w
       ∨ tbl_fsm_order w1 = (tbl_fsm_order w ++ [fo])%list)
    ∧ fo ∈ order_level (so_id so) w1
    ∧ length (order_level (so_id so) w1)
      = (1 `max` length (order_level (so_id so) w))%nat.
Proof.
  destruct (last (order_level (so_id so) w)) as [r|] eqn:Hlast.
  - exists r, w.
    pose proof (find_fsm_order_found so w r Hlast) as Hrun.
    split; [done|]. split; [done|]. split; [by left|].
    split; [by apply last_Some_elem_of|].
    destruct (order_level (so_id so) w); [done|]. simpl. lia.
  - apply last_None in Hlast.
    destruct (find_fsm_order_created so w Hlast)
      as (fo & w1 & Hrun & Htbl & Hone).
    exists fo, w1. split; [done|].
    split; [apply find_fsm_order_found; by rewrite Hone|].
    split; [by right|]. rewrite Hone, Hlast.
    split; [apply list_elem_of_here|done].
Qed.

(** C1: take a sale order that has at most one service order of its own
    (one without a line reference).  Finding its service order twice in a
    row gives the same service order both times; the first call stores at
    most one service order, the second call stores none; and afterwards
    the sale order has exactly one service order of its own. *)
Theorem find_fsm_order_at_most_one (so : SaleOrder) (w : World) :
  (length (order_level (so_id so) w) ≤ 1)%nat →
  ∃ (fo : FsmOrder) (w1 : World),
    find [so] w = (Ok {[so_id so := fo]}, w1)
    ∧ find [so] w1 = (Ok {[so_id so := fo]}, w1)
    ∧ (tbl_fsm_order w1 = tbl_fsm_order w
       ∨ tbl_fsm_order w1 = (tbl_fsm_order w ++ [fo])%list)
    ∧ order_level (so_id so) w1 = [fo].
Proof.
  intros Hle.
  destruct (find_fsm_order_twice so w)
    as (fo & w1 & Hfirst & Hsecond & Htbl & Hin & Hlen).
  exists fo, w1. split; [done|]. split; [done|]. split; [done|].
  destruct (order_level (so_id so) w1) as [|r [|r' l]]; simpl in Hlen.
  - lia.
  - apply list_elem_of_singleton in Hin. by subst r.
  - lia.
Qed.
End Create.

(** ** Confirming a sale order *)


Section Confirm.
Variable ConfirmResult : Type.
Variable super_action_confirm : SaleOrder → M ConfirmResult.
Variable _field_service_generation : list SaleOrderLine → M unit.

Local Abbreviation confirm :=
  (_action_confirm super_action_confirm _field_service_generation).

(** C2: when the inherited confirmation returns, a sale order that has a
    line whose tracking mode is not ["no"] and no service location is
    refused with the validation error; the database is left as the
    inherited confirmation left it, so no service order is stored unless
    the inherited confirmation stored one. *)
Theorem action_confirm_location_required
    (self : SaleOrder) (w w1 : World) (result : ConfirmResult) :
  super_action_confirm self w = (Ok result, w1) →
  (∃ sol, sol ∈ order_line self ∧ sol_tracking sol ≠ Some "no") →
  fsm_location_id self = None →
  confirm self w = (Raise (ValidationError "FSM Location must be set"), w1)
  ∧ (tbl_fsm_order w1 = tbl_fsm_order w →
     tbl_fsm_order (confirm self w).2 = tbl_fsm_order w).
Proof.
  intros Hsuper Hline Hloc.
  assert (confirm self w
          = (Raise (ValidationError "FSM Location must be set"), w1)) as Hrun.
  { unfold _action_confirm, mbind, M_bind. rewrite Hsuper, Hloc.
    rewrite bool_decide_eq_true_2 by (by apply Exists_exists). done. }
  split; [done|]. by rewrite Hrun.
Qed.

End Confirm.

(** ** Loops *)

Lemma for_each_cons_ok {A S} (body : S → A → M S) (x : A) (xs : list A)
    (s s1 : S) (w w1 : World) :
  body s x w = (Ok s1, w1) →
  for_each body (x :: xs) s w = for_each body xs s1 w1.
Proof. intros H. cbn [for_each]. unfold mbind, M_bind. by rewrite H. Qed.

Lemma for_each_cons_raise {A S} (body : S → A → M S) (x : A) (xs : list A)
    (s : S) (e : Exn) (w w1 : World) :
  body s x w = (Raise e, w1) →
  for_each body (x :: xs) s w = (Raise e, w1).
Proof. intros H. cbn [for_each]. unfold mbind, M_bind. by rewrite H. Qed.

(** ** The linked service orders of several sale orders *)

Lemma linked_ids (order : SaleOrder) (w : World) (i : Z) :
  i ∈ fo_id <$> rs_union fo_id (rs_union fo_id []
        (search read_fsm_order
           [D_leaf "sale_line_id" "in" (V_ids (sol_id <$> order_line order))]
           (tbl_fsm_order w)))
      (search read_fsm_order
         [D_leaf "sale_id" "=" (V_id (Some (so_id order)))]
         (tbl_fsm_order w))
  ↔ ∃ fo, fo ∈ tbl_fsm_order w ∧ fo_id fo = i ∧ linked order fo.
Proof.
  unfold rs_union at 2. rewrite app_nil_l, rs_union_unique_l.
  unfold rs_unique. rewrite keys_unique_from, list_elem_of_fmap, elem_of_nil.
  unfold linked. split.
  - intros [(fo & -> & Hfo) _]. apply search_linked in Hfo.
    exists fo. tauto.
  - intros (fo & Hfo & <- & Hlink). split; [|tauto].
    exists fo. split; [done|]. apply search_linked. tauto.
Qed.

Lemma compute_fsm_order_ids_loop (self done : list SaleOrder) (w : World) :
  ∃ result : list SaleOrder,
    for_each (λ done order,
      let orders := [] in
      found ← fsm_order_search
        [D_leaf "sale_line_id" "in" (V_ids (sol_id <$> order_line order))];
      let orders := rs_union fo_id orders found in
      found ← fsm_order_search [D_leaf "sale_id" "=" (V_id (Some (so_id order)))];
      let orders := rs_union fo_id orders found in
      let order :=
        {| so_id := so_id order;
           so_name := so_name order;
           partner_id := partner_id order;
           partner_shipping_id := partner_shipping_id order;
           expected_date := expected_date order;
           company_id := company_id order;
           order_line := order_line order;
           fsm_location_id := fsm_location_id order;
           fsm_order_ids := fo_id <$> orders;
           fsm_order_count := Z.of_nat (length (fo_id <$> orders)) |} in
      mret (done ++ [order])%list) self done w
    = (Ok (done ++ result)%list, w)
    ∧ Forall2 (computed w) self result.
Proof.
  revert done. induction self as [|order self IH]; intros done.
  - exists []. split; [by rewrite app_nil_r|constructor].
  - erewrite for_each_cons_ok
      by (cbv [mbind M_bind fsm_order_search mret M_ret]; reflexivity).
    lazymatch goal with
    | |- context [for_each _ self ?d w] =>
        destruct (IH d) as (result & Hrun & Hall)
    end.
    eexists (_ :: result). split.
    + rewrite Hrun. by rewrite <- (assoc_L (++)%list).
    + constructor; [|done]. eexists. split; [reflexivity|].
      split; [apply NoDup_unique_from|]. apply linked_ids.
Qed.

Lemma compute_fsm_order_ids_run (self : list SaleOrder) (w : World) :
  ∃ result : list SaleOrder,
    _compute_fsm_order_ids self w = (Ok result, w)
    ∧ Forall2 (computed w) self result.
Proof. apply (compute_fsm_order_ids_loop self [] w). Qed.

(** X1: on a recordset of sale orders the computation gives, sale order by
    sale order and in the same order, the sale order with its two computed
    fields set: the identifiers, each once, of the service orders of the
    database that are linked to it, and their number.  Nothing else of the
    sale order changes, and the database is left as it was. *)
Theorem compute_fsm_order_ids_each (self : list SaleOrder) (w : World) :
  ∃ result : list SaleOrder,
    _compute_fsm_order_ids self w = (Ok result, w)
    ∧ Forall2 (computed w) self result.
Proof. apply (compute_fsm_order_ids_loop self [] w). Qed.

(** ** The action that shows the service orders *)

Lemma NoDup_singleton_eq {A} (l : list A) (x : A) :
  NoDup l → (∀ i, i ∈ l ↔ i = x) → l = [x].
Proof.
  intros Hnd Hl. destruct l as [|a [|b l]].
  - assert (x ∈ @nil A) as H%elem_of_nil by (by apply Hl). done.
  - f_equal. apply Hl. by left.
  - assert (a = x) as -> by (apply Hl; by left).
    assert (b = x) as -> by (apply Hl; right; by left).
    apply NoDup_cons in Hnd as [Hnd _]. destruct Hnd. by left.
Qed.

Section ActionViewFacts.
Variable action_fsm_dash_order : gmap string ActionValue.
Variable fsm_order_form : Z.

Local Abbreviation view :=
  (action_view_fsm_order action_fsm_dash_order fsm_order_form).

(** The action, from the identifiers that the computation gives. *)
Lemma action_view_fsm_order_run (self : list SaleOrder) (w : World) :
  ∃ ids : list Z,
    NoDup ids
    ∧ (∀ i, i ∈ ids
            ↔ ∃ order fo, order ∈ self ∧ fo ∈ tbl_fsm_order w
                          ∧ fo_id fo = i ∧ linked order fo)
    ∧ view self w
      = (Ok (action_for action_fsm_dash_order fsm_order_form ids), w).
Proof.
  destruct (compute_fsm_order_ids_run self w) as (result & Hrun & Hall).
  exists (rs_unique (λ i, i) (result ≫= fsm_order_ids)).
  split; [|split].
  - rewrite <- (list_fmap_id (rs_unique _ _)).
    apply (NoDup_unique_from (λ i, i)).
  - intros i. unfold rs_unique.
    rewrite <- (list_fmap_id (unique_from _ _ _)).
    rewrite (keys_unique_from (λ i, i)), list_fmap_id, list_elem_of_bind.
    rewrite elem_of_nil. split.
    + intros [(order' & Hi & Hin) _].
      apply list_elem_of_lookup in Hin as [j Hj].
      destruct (Forall2_lookup_r _ _ _ _ _ Hall Hj)
        as (order & Hself & ids & -> & _ & Hids).
      apply Hids in Hi as (fo & ? & ? & ?).
      exists order, fo. split; [|done]. by apply list_elem_of_lookup_2 in Hself.
    + intros (order & fo & Hin & Hfo & Hid & Hlink). split; [|tauto].
      apply list_elem_of_lookup in Hin as [j Hj].
      destruct (Forall2_lookup_l _ _ _ _ _ Hall Hj)
        as (order' & Hres & ids & -> & _ & Hids).
      exists (with_fsm_orders order ids). split.
      * apply Hids. eauto.
      * by apply list_elem_of_lookup_2 in Hres.
  - unfold action_view_fsm_order, mbind, M_bind. rewrite Hrun.
    cbn [mret M_ret]. by destruct (rs_unique _ _) as [|? [|? ?]].
Qed.

(** X2: the action is decided by the service orders of the database that are
    linked to one of the sale orders of the recordset, each counted once
    even when several sale orders share it: none closes the window, one
    opens its form, several open the list restricted to them.  The database
    is left as it was. *)
Theorem action_view_fsm_order_shows (self : list SaleOrder) (w : World) :
  ∃ ids : list Z,
    NoDup ids
    ∧ (∀ i, i ∈ ids
            ↔ ∃ order fo, order ∈ self ∧ fo ∈ tbl_fsm_order w
                          ∧ fo_id fo = i ∧ linked order fo)
    ∧ view self w
      = (Ok (action_for action_fsm_dash_order fsm_order_form ids), w).
Proof. apply action_view_fsm_order_run. Qed.

(** X3: unless it closes the window, the action is the window action of the
    service orders with one thing written into it: either its domain, and
    then its views and its record are those of the window action, or its
    views and its record, and then its domain is that of the window action.
    Every other key is that of the window action. *)
Theorem action_view_fsm_order_keys
    (self : list SaleOrder) (w w' : World) (action : gmap string ActionValue) :
  view self w = (Ok action, w') →
  action = {["type" := A_str "ir.actions.act_window_close"]}
  ∨ ((∀ k, k ≠ "domain" → k ≠ "views" → k ≠ "res_id" →
           action !! k = action_fsm_dash_order !! k)
     ∧ ((action !! "views" = action_fsm_dash_order !! "views"
         ∧ action !! "res_id" = action_fsm_dash_order !! "res_id")
        ∨ action !! "domain" = action_fsm_dash_order !! "domain")).
Proof.
  destruct (action_view_fsm_order_run self w) as (ids & _ & _ & Hrun).
  rewrite Hrun. intros [= <- <-].
  destruct ids as [|i [|i' ids]]; [by left| |]; right; cbn [action_for].
  - split.
    + intros k ? ? ?. by rewrite !lookup_insert_ne.
    + right. by rewrite !lookup_insert_ne.
  - split.
    + intros k ? ? ?. by rewrite lookup_insert_ne.
    + left. by rewrite !lookup_insert_ne.
Qed.
End ActionViewFacts.

(** ** Creating the service orders of several sale orders *)

Section CreateFacts.
Variable fsm_order_name : Z → string.

Local Abbreviation create := (_field_create_fsm_order fsm_order_name).

Local Abbreviation create_body :=
  (λ (result : gmap Z FsmOrder) (so : SaleOrder),
     values ← lift_res (_field_create_fsm_order_prepare_values [so]);
     fsm_order ← fsm_order_create fsm_order_name values;
     _ ← message_post "sale.order" (so_id so)
           (Field_service_order_created (fo_id fsm_order) (fo_name fsm_order));
     _ ← message_post "fsm.order" (fo_id fsm_order)
           (Created_from (so_id so) (so_name so));
     mret (<[so_id so := fsm_order]> result)).

(** One turn of the loop. *)
Lemma create_body_run (result : gmap Z FsmOrder) (so : SaleOrder) (w : World) :
  ∃ (fo : FsmOrder) (w' : World),
    create_body result so w = (Ok (<[so_id so := fo]> result), w')
    ∧ created_from so fo
    ∧ tbl_fsm_order w' = (tbl_fsm_order w ++ [fo])%list
    ∧ tbl_fsm_location w' = tbl_fsm_location w
    ∧ tbl_mail_message w' = (tbl_mail_message w ++ cross_reference so fo)%list.
Proof.
  eexists _, _. split.
  - unfold mbind, M_bind, lift_res. rewrite prepare_values_one.
    cbn [fsm_order_create message_post mret M_ret]. reflexivity.
  - cbn. unfold created_from. cbn.
    by rewrite <- (assoc_L (++)%list).
Qed.

Lemma create_loop_run (self : list SaleOrder) (result : gmap Z FsmOrder)
    (w : World) :
  ∃ (m : gmap Z FsmOrder) (w' : World) (created : list FsmOrder),
    for_each create_body self result w = (Ok m, w')
    ∧ Forall2 created_from self created
    ∧ tbl_fsm_order w' = (tbl_fsm_order w ++ created)%list
    ∧ tbl_fsm_location w' = tbl_fsm_location w
    ∧ tbl_mail_message w'
      = (tbl_mail_message w
         ++ (zip self created ≫= λ p, cross_reference p.1 p.2))%list
    ∧ ∀ k, m !! k
           = match last (filter (λ fo, fo_sale_id fo = Some k) created) with
             | Some fo => Some fo
             | None => result !! k
             end.
Proof.
  revert result w. induction self as [|so self IH]; intros result w.
  - exists result, w, []. cbn. rewrite !app_nil_r. by repeat split.
  - destruct (create_body_run result so w)
      as (fo & w1 & Hstep & Hfrom & Htbl & Hloc & Hmail).
    rewrite (for_each_cons_ok _ _ _ _ _ _ _ Hstep).
    destruct (IH (<[so_id so := fo]> result) w1)
      as (m & w' & created & Hrun & Hall & Htbl' & Hloc' & Hmail' & Hm).
    exists m, w', (fo :: created). split; [done|].
    split; [by constructor|].
    split; [by rewrite Htbl', Htbl, <- (assoc_L (++)%list)|].
    split; [by rewrite Hloc'|].
    split.
    { rewrite Hmail', Hmail. cbn [zip zip_with mbind list_bind fst snd].
      by rewrite <- !(assoc_L (++)%list). }
    intros k. rewrite Hm.
    assert (fo_sale_id fo = Some (so_id so)) as Hsale
      by (unfold created_from in Hfrom; tauto).
    destruct (decide (so_id so = k)) as [<-|Hne].
    + rewrite filter_cons_True by done. rewrite last_cons.
      destruct (last _); [done|]. apply lookup_insert_eq.
    + rewrite filter_cons_False by (rewrite Hsale; congruence).
      destruct (last _); [done|]. by apply lookup_insert_ne.
Qed.

(** X4: on a recordset of sale orders the creation stores one new service
    order per sale order, in the order of the recordset and after the
    service orders that exist, each described by the values of its sale
    order and without a line reference; it posts two messages per sale
    order, one on the sale order that names the new service order and one
    on the service order that names the sale order; and it returns, for
    every sale order identifier, the service order created last for it. *)
Theorem create_fsm_order_each (self : list SaleOrder) (w : World) :
  ∃ (m : gmap Z FsmOrder) (w' : World) (created : list FsmOrder),
    create self w = (Ok m, w')
    ∧ Forall2 created_from self created
    ∧ tbl_fsm_order w' = (tbl_fsm_order w ++ created)%list
    ∧ tbl_fsm_location w' = tbl_fsm_location w
    ∧ tbl_mail_message w'
      = (tbl_mail_message w
         ++ (zip self created ≫= λ p, cross_reference p.1 p.2))%list
    ∧ ∀ k, m !! k = last (filter (λ fo, fo_sale_id fo = Some k) created).
Proof.
  destruct (create_loop_run self ∅ w)
    as (m & w' & created & Hrun & Hall & Htbl & Hloc & Hmail & Hm).
  exists m, w', created. repeat (split; [done|]).
  intros k. rewrite Hm. destruct (last _); [done|]. apply lookup_empty.
Qed.

(** X5: the creation never looks for a service order that exists: every call
    for a sale order adds one more service order of its own to those the
    sale order has. *)
Theorem create_fsm_order_adds_one (so : SaleOrder) (w : World) :
  ∃ (fo : FsmOrder) (w' : World),
    create [so] w = (Ok {[so_id so := fo]}, w')
    ∧ order_level (so_id so) w' = (order_level (so_id so) w ++ [fo])%list.
Proof.
  destruct (create_fsm_order_one fsm_order_name so w)
    as (fo & w' & Hrun & Htbl & _ & _ & Hsale & Hline & _).
  exists fo, w'. split; [done|].
  unfold order_level. rewrite Htbl, filter_app.
  by rewrite filter_cons_True, filter_nil.
Qed.
End CreateFacts.

(** ** Finding the service orders of several sale orders *)

(** The dictionary of the found service orders holds, for a sale order, the
    one found last. *)
Lemma mapping_lookup_any (l : list FsmOrder) (m : gmap (option Z) FsmOrder)
    (k : Z) :
  fold_left (λ m fsm_order, <[fo_sale_id fsm_order := fsm_order]> m) l m
    !! Some k
  = match last (filter (λ r, fo_sale_id r = Some k) l) with
    | Some r => Some r
    | None => m !! Some k
    end.
Proof.
  revert m. induction l as [|r l IH]; intros m; [done|].
  cbn [fold_left]. rewrite IH.
  destruct (decide (fo_sale_id r = Some k)) as [Hr|Hr].
  - rewrite filter_cons_True by done. rewrite last_cons.
    destruct (last _); [done|]. rewrite Hr. apply lookup_insert_eq.
  - rewrite filter_cons_False by done.
    destruct (last _); [done|]. by apply lookup_insert_ne.
Qed.

Lemma filter_none {A} (P : A → Prop) `{Pdec : !∀ x, Decision (P x)}
    (l : list A) :
  (∀ x, x ∈ l → ¬ P x) → filter P l = [].
Proof.
  intros Hl. induction l as [|x l IH]; [done|].
  rewrite filter_cons_False by (apply Hl; by left).
  apply IH. intros y ?. apply Hl. by right.
Qed.

(** Among what the search for the sale orders [ids] finds, the service
    orders of one of them are all its service orders of its own. *)
Lemma search_order_level_of (ids : list Z) (w : World) (k : Z) :
  k ∈ ids →
  filter (λ r, fo_sale_id r = Some k)
    (search read_fsm_order
       [D_leaf "sale_id" "in" (V_ids ids);
        D_leaf "sale_line_id" "=" (V_id None)]
       (tbl_fsm_order w))
  = order_level k w.
Proof.
  intros Hk. unfold search, order_level. rewrite list_filter_filter.
  apply list_filter_iff. intros r. rewrite domain_order_level. split.
  - tauto.
  - intros [Hs Hl]. split; [done|]. split; [|done]. eauto.
Qed.

Lemma order_level_app (k : Z) (w w' : World) (created : list FsmOrder) :
  tbl_fsm_order w' = (tbl_fsm_order w ++ created)%list →
  order_level k w'
  = (order_level k w
     ++ filter (λ r, fo_sale_id r = Some k ∧ fo_sale_line_id r = None)
          created)%list.
Proof. intros H. unfold order_level. by rewrite H, filter_app. Qed.

Section FindFacts.
Variable fsm_order_name : Z → string.

Local Abbreviation create := (_field_create_fsm_order fsm_order_name).
Local Abbreviation find := (_field_find_fsm_order fsm_order_name).

Local Abbreviation find_body mapping :=
  (λ (result : gmap Z FsmOrder) (so : SaleOrder),
     fsm_order ←
       match (mapping : gmap (option Z) FsmOrder) !! Some (so_id so) with
       | Some fsm_order => mret fsm_order
       | None =>
           created ← _field_create_fsm_order fsm_order_name [so];
           dict_get created (so_id so)
       end;
     mret (<[so_id so := fsm_order]> result)).

Lemma find_body_found (mapping : gmap (option Z) FsmOrder)
    (result : gmap Z FsmOrder) (so : SaleOrder) (w : World) (r : FsmOrder) :
  mapping !! Some (so_id so) = Some r →
  find_body mapping result so w = (Ok (<[so_id so := r]> result), w).
Proof. intros H. unfold mbind, M_bind. by rewrite H. Qed.

Lemma find_body_created (mapping : gmap (option Z) FsmOrder)
    (result : gmap Z FsmOrder) (so : SaleOrder) (w : World) :
  mapping !! Some (so_id so) = None →
  ∃ (fo : FsmOrder) (w' : World),
    find_body mapping result so w = (Ok (<[so_id so := fo]> result), w')
    ∧ tbl_fsm_order w' = (tbl_fsm_order w ++ [fo])%list
    ∧ fo_sale_id fo = Some (so_id so)
    ∧ fo_sale_line_id fo = None.
Proof.
  intros H.
  destruct (create_fsm_order_one fsm_order_name so w)
    as (fo & w' & Hrun & Htbl & _ & _ & Hsale & Hline & _).
  exists fo, w'. split; [|done].
  unfold mbind, M_bind. rewrite H.
  fold (@mbind M _). unfold mbind, M_bind.
  rewrite Hrun. unfold dict_get. rewrite lookup_singleton_eq. done.
Qed.

Lemma find_loop_run (mapping : gmap (option Z) FsmOrder)
    (rest : list SaleOrder) (result : gmap Z FsmOrder) (wi : World) :
  NoDup (so_id <$> rest) →
  (∀ so, so ∈ rest →
     mapping !! Some (so_id so) = last (order_level (so_id so) wi)) →
  ∃ (m : gmap Z FsmOrder) (w' : World) (created : list FsmOrder),
    for_each (find_body mapping) rest result wi = (Ok m, w')
    ∧ tbl_fsm_order w' = (tbl_fsm_order wi ++ created)%list
    ∧ (∀ so, so ∈ rest →
         ∃ fo, m !! so_id so = Some fo ∧ fo ∈ order_level (so_id so) w')
    ∧ (∀ k, k ∉ so_id <$> rest → m !! k = result !! k)
    ∧ (∀ k, length (order_level k w')
            = if decide (k ∈ so_id <$> rest)
              then (1 `max` length (order_level k wi))%nat
              else length (order_level k wi)).
Proof.
  revert result wi.
  induction rest as [|so rest IH]; intros result wi Hnd Hmap.
  - exists result, wi, []. split; [done|]. split; [by rewrite app_nil_r|].
    split; [by intros so ?%elem_of_nil|]. split; [done|]. intros k.
    rewrite decide_False; [done|]. by intros ?%elem_of_nil.
  - rewrite fmap_cons in Hnd. apply NoDup_cons in Hnd as [Hso Hnd].
    pose proof (Hmap so (list_elem_of_here _ _)) as Hhere.
    destruct (last (order_level (so_id so) wi)) as [r|] eqn:Hlast.
    + (* the sale order has a service order of its own *)
      rewrite (for_each_cons_ok _ _ _ _ _ _ _
                 (find_body_found mapping result so wi r Hhere)).
      destruct (IH (<[so_id so := r]> result) wi Hnd)
        as (m & w' & created & Hrun & Htbl & Hres & Hframe & Hlen).
      { intros so' ?. apply Hmap. by right. }
      exists m, w', created. split; [done|]. split; [done|].
      pose proof (last_Some_elem_of _ _ Hlast) as Hr.
      split; [|split].
      * intros so' [->|Hin]%elem_of_cons; [|by apply Hres].
        exists r. split.
        -- rewrite Hframe by done. apply lookup_insert_eq.
        -- rewrite (order_level_app _ wi w' created Htbl).
           apply elem_of_app. by left.
      * intros k Hk. rewrite fmap_cons, elem_of_cons in Hk.
        rewrite Hframe by tauto. apply lookup_insert_ne.
        intros Heq. apply Hk. by left.
      * intros k. rewrite Hlen, fmap_cons.
        destruct (decide (k ∈ so_id <$> rest)) as [Hk|Hk].
        -- rewrite decide_True; [done|]. by right.
        -- destruct (decide (k = so_id so)) as [->|Hne].
           ++ rewrite decide_True by (by left).
              destruct (order_level (so_id so) wi); [done|]. simpl. lia.
           ++ rewrite decide_False; [done|].
              rewrite elem_of_cons. tauto.
    + (* it has none: one is created *)
      apply last_None in Hlast.
      destruct (find_body_created mapping result so wi Hhere)
        as (fo & w1 & Hstep & Htbl1 & Hsale & Hline).
      rewrite (for_each_cons_ok _ _ _ _ _ _ _ Hstep).
      assert (∀ k, order_level k w1
                   = if decide (k = so_id so)
                     then (order_level k wi ++ [fo])%list
                     else order_level k wi) as Hlevel.
      { intros k. rewrite (order_level_app k wi w1 [fo] Htbl1).
        destruct (decide (k = so_id so)) as [->|Hne].
        - by rewrite filter_cons_True, filter_nil.
        - rewrite filter_cons_False, filter_nil, app_nil_r; [done|].
          rewrite Hsale. intros [[= ?] _]. congruence. }
      destruct (IH (<[so_id so := fo]> result) w1 Hnd)
        as (m & w' & created & Hrun & Htbl & Hres & Hframe & Hlen).
      { intros so' Hin. rewrite Hlevel.
        rewrite decide_False; [apply Hmap; by right|].
        intros Heq. apply Hso. rewrite <- Heq.
        by apply list_elem_of_fmap_2. }
      exists m, w', (fo :: created). split; [done|].
      split; [by rewrite Htbl, Htbl1, <- (assoc_L (++)%list)|].
      split; [|split].
      * intros so' [->|Hin]%elem_of_cons; [|by apply Hres].
        exists fo. split.
        -- rewrite Hframe by done. apply lookup_insert_eq.
        -- rewrite (order_level_app _ w1 w' created Htbl), Hlevel.
           rewrite decide_True by done.
           apply elem_of_app. left. apply elem_of_app. right. by left.
      * intros k Hk. rewrite fmap_cons, elem_of_cons in Hk.
        rewrite Hframe by tauto. apply lookup_insert_ne.
        intros Heq. apply Hk. by left.
      * intros k. rewrite Hlen, Hlevel, fmap_cons.
        repeat case_decide; subst; rewrite ?Hlast; try done; exfalso;
          repeat match goal with
                 | H : _ ∉ _ :: _ |- _ => apply not_elem_of_cons in H
                 | H : _ ∈ _ :: _ |- _ => apply elem_of_cons in H
                 end; tauto.
Qed.

(** The call, as the loop on the dictionary of what the search found. *)
Lemma find_fsm_order_batch (self : list SaleOrder) (w : World) :
  NoDup (so_id <$> self) →
  ∃ (m : gmap Z FsmOrder) (w' : World) (created : list FsmOrder),
    find self w = (Ok m, w')
    ∧ tbl_fsm_order w' = (tbl_fsm_order w ++ created)%list
    ∧ (∀ so, so ∈ self →
         ∃ fo, m !! so_id so = Some fo ∧ fo ∈ order_level (so_id so) w')
    ∧ (∀ k, k ∉ so_id <$> self → m !! k = None)
    ∧ (∀ k, length (order_level k w')
            = if decide (k ∈ so_id <$> self)
              then (1 `max` length (order_level k w))%nat
              else length (order_level k w)).
Proof.
  intros Hnd.
  destruct (find_loop_run
              (fold_left (λ m fsm_order, <[fo_sale_id fsm_order := fsm_order]> m)
                 (search read_fsm_order
                    [D_leaf "sale_id" "in" (V_ids (so_id <$> self));
                     D_leaf "sale_line_id" "=" (V_id None)]
                    (tbl_fsm_order w)) ∅)
              self ∅ w Hnd)
    as (m & w' & created & Hrun & Htbl & Hres & Hframe & Hlen).
  { intros so Hin. rewrite mapping_lookup_any, search_order_level_of
      by (by apply list_elem_of_fmap_2).
    destruct (last _); [done|]. apply lookup_empty. }
  exists m, w', created. split; [exact Hrun|]. split; [done|].
  split; [done|]. split; [|done].
  intros k Hk. rewrite Hframe by done. apply lookup_empty.
Qed.

(** X6: on a recordset that names no sale order twice, the call gives every
    sale order of the recordset a service order of its own (one without a
    line reference) and gives nothing for other identifiers.  It stores new
    service orders after those that exist and touches none of these; a sale
    order of the recordset that had service orders of its own has as many
    afterwards, one that had none has exactly one, and the service orders
    of other sale orders are as many as before. *)
Theorem find_fsm_order_each (self : list SaleOrder) (w : World) :
  NoDup (so_id <$> self) →
  ∃ (m : gmap Z FsmOrder) (w' : World) (created : list FsmOrder),
    find self w = (Ok m, w')
    ∧ tbl_fsm_order w' = (tbl_fsm_order w ++ created)%list
    ∧ (∀ so, so ∈ self →
         ∃ fo, m !! so_id so = Some fo ∧ fo ∈ order_level (so_id so) w')
    ∧ (∀ k, k ∉ so_id <$> self → m !! k = None)
    ∧ (∀ k, length (order_level k w')
            = if decide (k ∈ so_id <$> self)
              then (1 `max` length (order_level k w))%nat
              else length (order_level k w)).
Proof. apply find_fsm_order_batch. Qed.
End FindFacts.

Section FindMore.
Variable fsm_order_name : Z → string.

Local Abbreviation create := (_field_create_fsm_order fsm_order_name).
Local Abbreviation find := (_field_find_fsm_order fsm_order_name).

(** X7: the service orders that exist are looked up once, before the loop.
    A recordset that names twice a sale order without a service order of
    its own therefore gets two: both are stored, and the second is the one
    returned. *)
Theorem find_fsm_order_named_twice (so : SaleOrder) (w : World) :
  order_level (so_id so) w = [] →
  ∃ (fo1 fo2 : FsmOrder) (w' : World),
    find [so; so] w = (Ok {[so_id so := fo2]}, w')
    ∧ tbl_fsm_order w' = (tbl_fsm_order w ++ [fo1; fo2])%list
    ∧ order_level (so_id so) w' = [fo1; fo2].
Proof.
  intros Hnone.
  set (mapping :=
    fold_left (λ m fsm_order, <[fo_sale_id fsm_order := fsm_order]> m)
      (search read_fsm_order
         [D_leaf "sale_id" "in" (V_ids (so_id <$> [so; so]));
          D_leaf "sale_line_id" "=" (V_id None)]
         (tbl_fsm_order w)) (∅ : gmap (option Z) FsmOrder)).
  assert (mapping !! Some (so_id so) = None) as Hmap.
  { unfold mapping. rewrite mapping_lookup_any, search_order_level_of, Hnone
      by (by left).
    apply lookup_empty. }
  destruct (find_body_created fsm_order_name mapping ∅ so w Hmap)
    as (fo1 & w1 & Hstep1 & Htbl1 & Hsale1 & Hline1).
  destruct (find_body_created fsm_order_name mapping
              (<[so_id so := fo1]> ∅) so w1 Hmap)
    as (fo2 & w2 & Hstep2 & Htbl2 & Hsale2 & Hline2).
  exists fo1, fo2, w2.
  assert (tbl_fsm_order w2 = (tbl_fsm_order w ++ [fo1; fo2])%list) as Htbl
    by (by rewrite Htbl2, Htbl1, <- (assoc_L (++)%list)).
  split; [|split; [done|]].
  - change (find [so; so] w)
      with (for_each
              (λ (result : gmap Z FsmOrder) (so : SaleOrder),
                 fsm_order ←
                   match mapping !! Some (so_id so) with
                   | Some fsm_order => mret fsm_order
                   | None =>
                       created ← _field_create_fsm_order fsm_order_name [so];
                       dict_get created (so_id so)
                   end;
                 mret (<[so_id so := fsm_order]> result)) [so; so] ∅ w).
    rewrite (for_each_cons_ok _ _ _ _ _ _ _ Hstep1).
    rewrite (for_each_cons_ok _ _ _ _ _ _ _ Hstep2).
    cbn [for_each mret M_ret]. by rewrite insert_insert_eq, insert_empty.
  - rewrite (order_level_app _ w w2 [fo1; fo2] Htbl), Hnone.
    by rewrite !filter_cons_True, filter_nil.
Qed.

(** The creation for one sale order, with what it stores and posts. *)
Lemma create_one_described (so : SaleOrder) (w : World) :
  ∃ (fo : FsmOrder) (w' : World),
    create [so] w = (Ok {[so_id so := fo]}, w')
    ∧ created_from so fo
    ∧ tbl_fsm_order w' = (tbl_fsm_order w ++ [fo])%list
    ∧ tbl_mail_message w'
      = (tbl_mail_message w ++ cross_reference so fo)%list.
Proof.
  destruct (create_body_run fsm_order_name ∅ so w)
    as (fo & w' & Hstep & Hfrom & Htbl & _ & Hmail).
  exists fo, w'. split; [|done].
  unfold _field_create_fsm_order.
  rewrite (for_each_cons_ok _ _ _ _ _ _ _ Hstep).
  cbn [for_each mret M_ret]. by rewrite insert_empty.
Qed.

(** X8: a sale order that has service orders of its own gets the one that
    the search finds last, and nothing is stored or posted: the database is
    left as it was.  A sale order that has none, whatever service orders
    with a line reference it has, gets a new one, stored last and described
    by the values of the sale order, and the two messages that link them
    are posted. *)
Theorem find_fsm_order_reuses_or_creates (so : SaleOrder) (w : World) :
  (order_level (so_id so) w ≠ [] →
     ∃ fo, last (order_level (so_id so) w) = Some fo
           ∧ find [so] w = (Ok {[so_id so := fo]}, w))
  ∧ (order_level (so_id so) w = [] →
     ∃ (fo : FsmOrder) (w' : World),
       find [so] w = (Ok {[so_id so := fo]}, w')
       ∧ created_from so fo
       ∧ tbl_fsm_order w' = (tbl_fsm_order w ++ [fo])%list
       ∧ tbl_mail_message w'
         = (tbl_mail_message w ++ cross_reference so fo)%list).
Proof.
  split.
  - intros Hsome.
    destruct (last (order_level (so_id so) w)) as [fo|] eqn:Hlast.
    + exists fo. split; [done|]. by apply find_fsm_order_found.
    + by apply last_None in Hlast.
  - intros Hnone.
    destruct (create_one_described so w)
      as (fo & w' & Hrun & Hfrom & Htbl & Hmail).
    exists fo, w'. split; [|done].
    unfold _field_find_fsm_order, mbind, M_bind, fsm_order_search.
    cbv beta iota. rewrite search_order_level, Hnone. cbn [for_each fold_left].
    rewrite lookup_empty. fold (@mbind M _). unfold mbind, M_bind.
    rewrite Hrun. unfold dict_get. rewrite lookup_singleton_eq.
    cbn. by rewrite insert_empty.
Qed.

(** X9: the service order that the call gives to a sale order is one of the
    service orders linked to it: computing the links afterwards counts at
    least one service order, and the one returned is among them. *)
Theorem find_then_compute_fsm_order_ids (so : SaleOrder) (w : World) :
  ∃ (fo : FsmOrder) (w1 : World) (so' : SaleOrder),
    find [so] w = (Ok {[so_id so := fo]}, w1)
    ∧ _compute_fsm_order_ids [so] w1 = (Ok [so'], w1)
    ∧ fo_id fo ∈ fsm_order_ids so'
    ∧ (1 ≤ fsm_order_count so')%Z.
Proof.
  destruct (find_fsm_order_twice fsm_order_name so w)
    as (fo & w1 & Hrun & _ & _ & Hin & _).
  apply (order_level_sale fsm_order_name) in Hin as (Htbl & Hsale & _).
  destruct (compute_fsm_order_ids_run [so] w1) as (result & Hcomp & Hall).
  apply Forall2_cons_inv_l in Hall
    as (so' & rest & (ids & -> & Hnd & Hids) & ->%Forall2_nil_inv_l & ->).
  exists fo, w1, (with_fsm_orders so ids). split; [done|]. split; [done|].
  assert (fo_id fo ∈ ids) as Hfo.
  { apply Hids. exists fo. split; [done|]. split; [done|]. by right. }
  split; [done|]. cbn. destruct ids; [by apply elem_of_nil in Hfo|].
  simpl. lia.
Qed.
End FindMore.

Section ViewAfterFind.
Variable fsm_order_name : Z → string.
Variable action_fsm_dash_order : gmap string ActionValue.
Variable fsm_order_form : Z.

(** X10: for a sale order to which no service order of the database is
    linked, finding its service order and then asking for the action opens
    the form of the service order just created. *)
Theorem find_then_action_view_fsm_order (so : SaleOrder) (w : World) :
  (∀ fo, fo ∈ tbl_fsm_order w → ¬ linked so fo) →
  ∃ (fo : FsmOrder) (w1 : World),
    _field_find_fsm_order fsm_order_name [so] w = (Ok {[so_id so := fo]}, w1)
    ∧ action_view_fsm_order action_fsm_dash_order fsm_order_form [so] w1
      = (Ok (<["res_id" := A_int (fo_id fo)]>
               (<["views" := A_views [(fsm_order_form, "form")]]>
                  action_fsm_dash_order)), w1).
Proof.
  intros Hnone.
  assert (order_level (so_id so) w = []) as Hlevel.
  { apply filter_none. intros r Hr [Hsale _]. apply (Hnone r Hr). by right. }
  destruct (find_fsm_order_created fsm_order_name so w Hlevel)
    as (fo & w1 & Hrun & Htbl & Hone).
  assert (fo ∈ order_level (so_id so) w1) as Hfo
    by (rewrite Hone; apply list_elem_of_here).
  apply (order_level_sale fsm_order_name) in Hfo as (Hin & Hsale & _).
  exists fo, w1. split; [done|].
  destruct (action_view_fsm_order_run action_fsm_dash_order fsm_order_form
              [so] w1) as (ids & Hnd & Hids & Hview).
  rewrite Hview.
  rewrite (NoDup_singleton_eq ids (fo_id fo) Hnd); [done|].
  intros i. rewrite Hids. split.
  - intros (order & fo' & Horder & Hfo' & <- & Hlink).
    apply list_elem_of_singleton in Horder. subst order.
    rewrite Htbl in Hfo'. apply elem_of_app in Hfo' as [Hold|Hnew].
    + by destruct (Hnone fo' Hold).
    + apply list_elem_of_singleton in Hnew. by subst fo'.
  - intros ->. exists so, fo. split; [apply list_elem_of_here|].
    split; [done|]. split; [done|]. by right.
Qed.
End ViewAfterFind.

(** ** More on confirming a sale order *)

Section ConfirmFacts.
Variable ConfirmResult : Type.
Variable super_action_confirm : SaleOrder → M ConfirmResult.
Variable _field_service_generation : list SaleOrderLine → M unit.

Local Abbreviation confirm :=
  (_action_confirm super_action_confirm _field_service_generation).

(** X11: whatever the inherited confirmation and the generation of the lines
    do, a sale order that has a line whose tracking mode is not ["no"] is
    never confirmed without a service location. *)
Theorem action_confirm_needs_location
    (self : SaleOrder) (w w' : World) (result : ConfirmResult) :
  confirm self w = (Ok result, w') →
  (∃ sol, sol ∈ order_line self ∧ sol_tracking sol ≠ Some "no") →
  is_Some (fsm_location_id self).
Proof.
  intros Hrun Hline. destruct (fsm_location_id self) as [loc|] eqn:Hloc; [done|].
  exfalso. revert Hrun. unfold _action_confirm, mbind, M_bind.
  destruct (super_action_confirm self w) as [[r|e] w1]; [|done].
  rewrite bool_decide_eq_true_2 by (by apply Exists_exists).
  by rewrite Hloc.
Qed.

(** X12: when the inherited confirmation returns and the sale order has a
    service location and a line whose tracking mode is not ["no"], the
    generation is run on all the lines of the sale order, from the database
    that the inherited confirmation left.  If it returns, the confirmation
    returns what the inherited confirmation returned; if it raises, the
    confirmation raises the same. *)
Theorem action_confirm_runs_generation
    (self : SaleOrder) (location : FsmLocation) (w w1 w2 : World)
    (result : ConfirmResult) :
  super_action_confirm self w = (Ok result, w1) →
  (∃ sol, sol ∈ order_line self ∧ sol_tracking sol ≠ Some "no") →
  fsm_location_id self = Some location →
  (_field_service_generation (order_line self) w1 = (Ok (), w2) →
     confirm self w = (Ok result, w2))
  ∧ (∀ e, _field_service_generation (order_line self) w1 = (Raise e, w2) →
       confirm self w = (Raise e, w2)).
Proof.
  intros Hsuper Hline Hloc.
  split; [intros Hgen|intros e Hgen];
    unfold _action_confirm, mbind, M_bind; rewrite Hsuper, Hloc;
    rewrite bool_decide_eq_true_2 by (by apply Exists_exists);
    cbn [mret M_ret]; by rewrite Hgen.
Qed.
End ConfirmFacts.

(** ** More on the values of a new service order *)

Lemma unique_from_seen {A} (key : A → Z) (seen : list Z) (a b : list A)
    (x : A) :
  key x ∈ seen ∨ key x ∈ key <$> a →
  unique_from key seen (a ++ x :: b) = unique_from key seen (a ++ b).
Proof.
  intros Hx. rewrite !unique_from_app. f_equal. cbn [unique_from].
  rewrite decide_True; [done|]. rewrite elem_of_app. tauto.
Qed.

Lemma rs_unique_snoc {A} (key : A → Z) (l : list A) (x : A) :
  rs_unique key (l ++ [x])
  = if decide (key x ∈ key <$> l) then rs_unique key l
    else (rs_unique key l ++ [x])%list.
Proof.
  unfold rs_unique. rewrite unique_from_app, app_nil_r. cbn [unique_from].
  destruct (decide (key x ∈ key <$> l)); [by rewrite app_nil_r|done].
Qed.

Lemma keys_rs_unique {A} (key : A → Z) (l : list A) (k : Z) :
  k ∈ key <$> rs_unique key l ↔ k ∈ key <$> l.
Proof.
  unfold rs_unique. rewrite keys_unique_from, elem_of_nil. tauto.
Qed.

Lemma notes_of_snoc (templates : list FsmTemplate) (t : FsmTemplate) :
  notes_of (templates ++ [t])
  = notes_of templates ++ default "" (instructions t).
Proof.
  induction templates as [|t' ts IH]; cbn [notes_of foldr app].
  - by rewrite string_app_empty_r.
  - fold (notes_of (ts ++ [t])). fold (notes_of ts).
    by rewrite IH, string_app_assoc.
Qed.

(** What a further line at the end brings to the templates. *)
Lemma sale_templates_snoc (so : SaleOrder) (lines : list SaleOrderLine)
    (x : SaleOrderLine) :
  sale_templates (with_lines so (lines ++ [x]))
  = match (if decide (sol_tracking x = Some "sale") then product_id x
           else None) with
    | Some p =>
        if decide (prod_id p
                   ∈ prod_id <$> omap product_id
                       (filter (λ sol, sol_tracking sol = Some "sale") lines))
        then sale_templates (with_lines so lines)
        else match fsm_order_template_id p with
             | Some t =>
                 if decide (tmpl_id t
                            ∈ tmpl_id <$> sale_templates (with_lines so lines))
                 then sale_templates (with_lines so lines)
                 else (sale_templates (with_lines so lines) ++ [t])%list
             | None => sale_templates (with_lines so lines)
             end
    | None => sale_templates (with_lines so lines)
    end.
Proof.
  unfold sale_templates, with_lines. cbn [order_line]. rewrite filter_app.
  destruct (decide (sol_tracking x = Some "sale")) as [Hsale|Hsale].
  - rewrite filter_cons_True, filter_nil by done.
    unfold mapped_product_id at 1. rewrite omap_app. cbn [omap list_omap].
    destruct (product_id x) as [p|]; [|by rewrite app_nil_r].
    rewrite rs_unique_snoc.
    destruct (decide (prod_id p ∈ _)) as [Hp|Hp]; [done|].
    unfold mapped_fsm_order_template_id at 1. rewrite omap_app.
    cbn [omap list_omap].
    destruct (fsm_order_template_id p) as [t|]; [|by rewrite app_nil_r].
    rewrite rs_unique_snoc.
    unfold mapped_fsm_order_template_id, mapped_product_id.
    destruct (decide (tmpl_id t ∈ tmpl_id <$> omap _ _)) as [Ht|Ht].
    + rewrite decide_True; [done|]. by apply keys_rs_unique.
    + rewrite decide_False; [done|]. by rewrite keys_rs_unique.
  - by rewrite filter_cons_False, filter_nil, app_nil_r.
Qed.

(** X13: a line whose tracking mode is not ["sale"], wherever it stands among
    the lines, brings nothing to the values. *)
Theorem prepare_values_skips_line (so : SaleOrder)
    (before after : list SaleOrderLine) (x : SaleOrderLine) :
  sol_tracking x ≠ Some "sale" →
  _field_create_fsm_order_prepare_values
    [with_lines so (before ++ x :: after)]
  = _field_create_fsm_order_prepare_values [with_lines so (before ++ after)].
Proof.
  intros Hx. rewrite !prepare_values_one.
  assert (sale_templates (with_lines so (before ++ x :: after))
          = sale_templates (with_lines so (before ++ after))) as ->; [|done].
  unfold sale_templates, with_lines. cbn [order_line].
  by rewrite !filter_app, filter_cons_False.
Qed.

(** X14: a further line at the end whose product has no template, or a
    template that the lines before it have already brought, leaves the
    values as they are: a template counts once, however many lines and
    products carry it. *)
Theorem prepare_values_template_once (so : SaleOrder)
    (lines : list SaleOrderLine) (x : SaleOrderLine) :
  (∀ t, product_id x ≫= fsm_order_template_id = Some t →
        tmpl_id t ∈ tmpl_id <$> sale_templates (with_lines so lines)) →
  _field_create_fsm_order_prepare_values [with_lines so (lines ++ [x])]
  = _field_create_fsm_order_prepare_values [with_lines so lines].
Proof.
  intros Hx. rewrite !prepare_values_one.
  assert (sale_templates (with_lines so (lines ++ [x]))
          = sale_templates (with_lines so lines)) as ->; [|done].
  rewrite sale_templates_snoc.
  destruct (decide (sol_tracking x = Some "sale")); [|done].
  destruct (product_id x) as [p|]; [|done].
  destruct (decide (prod_id p ∈ _)); [done|].
  destruct (fsm_order_template_id p) as [t|] eqn:Ht; [|done].
  rewrite decide_True; [done|]. apply Hx. done.
Qed.

(** X15: a further line at the end in tracking mode ["sale"], on a product
    that no such line before it is on and with a template that none has
    brought, adds to the values: the instructions of the template after the
    notes, its duration to the hours, and its categories, those not yet
    there, after the categories. *)
Theorem prepare_values_further_template (so : SaleOrder)
    (lines : list SaleOrderLine) (x : SaleOrderLine) (p : Product)
    (t : FsmTemplate) (v : FsmOrderValues) (categories : list Z) :
  sol_tracking x = Some "sale" →
  product_id x = Some p →
  fsm_order_template_id p = Some t →
  prod_id p ∉ prod_id <$> omap product_id
               (filter (λ sol, sol_tracking sol = Some "sale") lines) →
  tmpl_id t ∉ tmpl_id <$> sale_templates (with_lines so lines) →
  _field_create_fsm_order_prepare_values [with_lines so lines] = Ok v →
  v_category_ids v = [Cmd_set categories] →
  ∃ v' : FsmOrderValues,
    _field_create_fsm_order_prepare_values [with_lines so (lines ++ [x])]
    = Ok v'
    ∧ v_todo v' = v_todo v ++ default "" (instructions t)
    ∧ v_scheduled_duration v' = (v_scheduled_duration v + duration t)%float
    ∧ v_category_ids v'
      = [Cmd_set (rs_union (λ c, c) categories (category_ids t))].
Proof.
  intros Hsale Hp Ht Hnewp Hnewt. rewrite !prepare_values_one.
  intros [= <-]. cbn [v_category_ids]. intros [= <-].
  eexists. split; [reflexivity|].
  cbn [v_todo v_scheduled_duration v_category_ids].
  assert (sale_templates (with_lines so (lines ++ [x]))
          = (sale_templates (with_lines so lines) ++ [t])%list) as ->.
  { rewrite sale_templates_snoc.
    rewrite decide_True by done. rewrite Hp.
    rewrite decide_False by done. rewrite Ht.
    by rewrite decide_False. }
  split; [apply notes_of_snoc|]. split.
  - unfold hours_of. by rewrite fold_left_app.
  - f_equal. f_equal. unfold categories_of.
    rewrite bind_app. cbn [mbind list_bind]. rewrite app_nil_r.
    by rewrite rs_union_unique_l.
Qed.

(** ** The model at work on the sample records *)

(** Two lines, two templates: the notes in the order of the lines, the hours
    added up, the categories each once. *)
Example prepare_values_two_lines :
  _field_create_fsm_order_prepare_values
    [sample_order (contact false) [line_a; line_desk; line_b]]
  = Ok {| v_location_id := None;
          v_location_directions := None;
          v_request_early := Some 1700000000;
          v_scheduled_date_start := Some 1700000000;
          v_todo := "AB";
          v_category_ids := [Cmd_set [1; 2; 3]];
          v_scheduled_duration := 3.5%float;
          v_sale_id := 1;
          v_company_id := Some 1 |}.
Proof. vm_compute. reflexivity. Qed.

(** Two lines on the same product bring its template once: [mapped] gives
    a recordset. *)
Example sale_templates_same_product :
  sale_templates (sample_order (contact false) [line_a; line_a_again])
  = [template_a].
Proof. vm_compute. reflexivity. Qed.

(** Finding the service order of a sale order that has none stores one and
    posts the two messages; finding it again changes nothing. *)
Example find_twice_from_nothing :
  let so := sample_order (contact false) [line_a] in
  ∃ fo w1,
    _field_find_fsm_order sample_name [so] (sample_world []) = (Ok {[1 := fo]}, w1)
    ∧ _field_find_fsm_order sample_name [so] w1 = (Ok {[1 := fo]}, w1)
    ∧ fo_id <$> tbl_fsm_order w1 = [1]
    ∧ tbl_mail_message w1
      = [{| msg_model := "sale.order"; msg_res_id := 1;
            msg_body := Field_service_order_created 1 "FSO" |};
         {| msg_model := "fsm.order"; msg_res_id := 1;
            msg_body := Created_from 1 "S00001" |}].
Proof. eexists _, _. vm_compute. repeat split. Qed.

(** A sale order that already has two service orders of its own keeps
    both: the dictionary holds the later one, which is returned, and
    nothing is stored. *)
Example find_with_two_of_its_own :
  let so := sample_order (contact false) [line_a] in
  let w := sample_world [sample_fsm_order 1 None; sample_fsm_order 2 None] in
  _field_find_fsm_order sample_name [so] w
  = (Ok {[1 := sample_fsm_order 2 None]}, w).
Proof. vm_compute. reflexivity. Qed.

(** The tracking mode of a line without a product reads as [False], which
    is not ["no"]: the service location is asked for. *)
Example action_confirm_line_without_product :
  _action_confirm sample_confirm sample_generation
    (sample_order (contact false) [line_desk; line_note]) (sample_world [])
  = (Raise (ValidationError "FSM Location must be set"), sample_world []).
Proof. vm_compute. reflexivity. Qed.

(** ** The statements at the sample records *)

Lemma find_fsm_order_at_most_one_witness :
  let so := sample_order (contact false) [line_a] in
  (length (order_level (so_id so) (sample_world [])) ≤ 1)%nat
  ∧ ∃ fo w1,
      _field_find_fsm_order sample_name [so] (sample_world [])
      = (Ok {[so_id so := fo]}, w1)
      ∧ _field_find_fsm_order sample_name [so] w1 = (Ok {[so_id so := fo]}, w1)
      ∧ (tbl_fsm_order w1 = tbl_fsm_order (sample_world [])
         ∨ tbl_fsm_order w1 = (tbl_fsm_order (sample_world []) ++ [fo])%list)
      ∧ order_level (so_id so) w1 = [fo].
Proof.
  split; [vm_compute; lia|].
  apply (find_fsm_order_at_most_one sample_name).
  vm_compute. lia.
Defined.

Lemma action_confirm_location_required_witness :
  let so := sample_order (contact false) [line_desk; line_a] in
  _action_confirm sample_confirm sample_generation so (sample_world [])
  = (Raise (ValidationError "FSM Location must be set"), sample_world [])
  ∧ (tbl_fsm_order (sample_world []) = tbl_fsm_order (sample_world []) →
     tbl_fsm_order
       (_action_confirm sample_confirm sample_generation so (sample_world [])).2
     = tbl_fsm_order (sample_world [])).
Proof.
  apply (action_confirm_location_required bool sample_confirm
           sample_generation _ _ _ true).
  - reflexivity.
  - exists line_a. split; [|vm_compute; discriminate].
    apply list_elem_of_further, list_elem_of_here.
  - reflexivity.
Defined.


Lemma prepare_values_aggregates_witness :
  ∃ v : FsmOrderValues,
    _field_create_fsm_order_prepare_values
      [sample_order (contact false) [line_a; line_b]] = Ok v
    ∧ v_scheduled_duration v = 3.5%float ∧ v_todo v = "AB".
Proof.
  destruct (prepare_values_aggregates
              (sample_order (contact false) [line_a; line_b]))
    as (v & Hv & _ & _ & _ & _ & _ & Htwo).
  exists v. split; [exact Hv|].
  apply (Htwo line_a line_b product_a product_b template_a template_b);
    try reflexivity; vm_compute; discriminate.
Defined.

Lemma onchange_partner_service_location_witness :
  let so := sample_order (contact true) [line_a] in
  ∃ so' : SaleOrder,
    onchange_partner_id sample_onchange so (sample_world [])
    = (Ok so', sample_world [])
    ∧ fsm_location_id so' = None.
Proof.
  intros so.
  destruct (onchange_partner_service_location sample_onchange so
              (sample_world []) (contact true) eq_refl eq_refl)
    as (so' & Hrun & _ & _ & Hnone).
  exists so'. split; [exact Hrun|]. apply Hnone.
  intros l Hl. apply list_elem_of_singleton in Hl. subst l.
  vm_compute. discriminate.
Defined.

Lemma onchange_partner_any_of_three_witness :
  let so := sample_order (contact false) [line_a] in
  ∃ so' : SaleOrder,
    onchange_partner_id sample_onchange so (sample_world [])
    = (Ok so', sample_world [])
    ∧ fsm_location_id so' = Some location_of_company.
Proof.
  intros so.
  destruct (onchange_partner_any_of_three sample_onchange so
              (sample_world []) eq_refl)
    as (so' & Hrun & Hloc & _).
  exists so'. split; [exact Hrun|]. rewrite Hloc. vm_compute. reflexivity.
Defined.

Lemma compute_fsm_order_ids_union_witness :
  let so := sample_order (contact false) [line_a] in
  let w := sample_world [sample_fsm_order 1 (Some 100); sample_fsm_order 2 None] in
  ∃ so' : SaleOrder,
    _compute_fsm_order_ids [so] w = (Ok [so'], w)
    ∧ 1 ∈ fsm_order_ids so' ∧ 2 ∈ fsm_order_ids so'.
Proof.
  intros so w.
  destruct (compute_fsm_order_ids_union so w)
    as (so' & Hrun & _ & _ & _ & Hboth & _).
  exists so'. split; [exact Hrun|].
  apply (Hboth (sample_fsm_order 1 (Some 100)) (sample_fsm_order 2 None) 100);
    try reflexivity.
  - apply list_elem_of_here.
  - apply list_elem_of_further, list_elem_of_here.
Defined.

Lemma prepare_values_ensure_one_witness :
  _field_create_fsm_order_prepare_values []
  = Raise (ValueError "Expected singleton")
  ∧ ∃ v, _field_create_fsm_order_prepare_values
           [sample_order (contact false) [line_a]] = Ok v.
Proof.
  split.
  - apply (prepare_values_ensure_one sample_name []). vm_compute. discriminate.
  - apply (prepare_values_ensure_one sample_name
             [sample_order (contact false) [line_a]]).
    reflexivity.
Defined.


(** ** More of the model at work *)

(** Two sale orders that share their only service order: the action opens
    its form. *)
Example action_view_shared_service_order :
  action_view_fsm_order sample_action sample_form
    [sample_order (contact false) [line_a];
     with_lines (sample_order (contact false) []) [line_a]]
    (sample_world [sample_fsm_order 1 (Some 100)])
  = (Ok (<["res_id" := A_int 1]>
           (<["views" := A_views [(77, "form")]]> sample_action)),
     sample_world [sample_fsm_order 1 (Some 100)]).
Proof. vm_compute. reflexivity. Qed.

(** Creating twice for the same sale order stores two service orders. *)
Example create_twice :
  ∃ m1 w1 m2 w2,
    _field_create_fsm_order sample_name
      [sample_order (contact false) [line_a]] (sample_world []) = (Ok m1, w1)
    ∧ _field_create_fsm_order sample_name
        [sample_order (contact false) [line_a]] w1 = (Ok m2, w2)
    ∧ fo_id <$> order_level 1 w2 = [1; 2].
Proof. eexists _, _, _, _. vm_compute. repeat split. Qed.

(** ** More statements at the sample records *)

Lemma action_view_fsm_order_keys_witness :
  let w := sample_world [sample_fsm_order 1 None; sample_fsm_order 2 None] in
  ∃ action,
    action_view_fsm_order sample_action sample_form
      [sample_order (contact false) [line_a]] w = (Ok action, w)
    ∧ action !! "res_model" = Some (A_str "fsm.order")
    ∧ action !! "domain" = Some (A_domain [D_leaf "id" "in" (V_ids [1; 2])]).
Proof.
  intros w. eexists. split; [vm_compute; reflexivity|].
  destruct (action_view_fsm_order_keys sample_action sample_form
              [sample_order (contact false) [line_a]] w w _ eq_refl)
    as [Hclose|[Hkeys _]].
  - vm_compute in Hclose. discriminate.
  - split; [|vm_compute; reflexivity].
    rewrite Hkeys by discriminate. vm_compute. reflexivity.
Defined.

Lemma find_fsm_order_each_witness :
  let self := [sample_order (contact false) [line_a]; other_order [line_b]] in
  let w := sample_world [sample_fsm_order 1 None] in
  NoDup (so_id <$> self)
  ∧ ∃ m w' created,
      _field_find_fsm_order sample_name self w = (Ok m, w')
      ∧ tbl_fsm_order w' = (tbl_fsm_order w ++ created)%list
      ∧ length (order_level 1 w') = 1%nat
      ∧ length (order_level 2 w') = 1%nat.
Proof.
  intros self w.
  assert (NoDup (so_id <$> self)) as Hnd.
  { apply (bool_decide_unpack _). vm_compute. exact I. }
  split; [exact Hnd|].
  destruct (find_fsm_order_each sample_name self w Hnd)
    as (m & w' & created & Hrun & Htbl & _ & _ & Hlen).
  exists m, w', created. split; [exact Hrun|]. split; [exact Htbl|].
  split; [apply (Hlen 1)|apply (Hlen 2)].
Defined.

Lemma find_fsm_order_named_twice_witness :
  let so := sample_order (contact false) [line_a] in
  ∃ fo1 fo2 w',
    _field_find_fsm_order sample_name [so; so] (sample_world [])
    = (Ok {[so_id so := fo2]}, w')
    ∧ tbl_fsm_order w' = [fo1; fo2]
    ∧ order_level (so_id so) w' = [fo1; fo2].
Proof.
  intros so.
  apply (find_fsm_order_named_twice sample_name so (sample_world [])).
  reflexivity.
Defined.

Lemma find_fsm_order_reuses_or_creates_witness :
  let so := sample_order (contact false) [line_a] in
  (∃ fo,
     last (order_level 1
             (sample_world [sample_fsm_order 1 None; sample_fsm_order 2 None]))
     = Some fo
     ∧ _field_find_fsm_order sample_name [so]
         (sample_world [sample_fsm_order 1 None; sample_fsm_order 2 None])
       = (Ok {[1 := fo]},
          sample_world [sample_fsm_order 1 None; sample_fsm_order 2 None]))
  ∧ (∃ fo w',
       _field_find_fsm_order sample_name [so]
         (sample_world [sample_fsm_order 1 (Some 100)])
       = (Ok {[1 := fo]}, w')
       ∧ created_from so fo
       ∧ tbl_fsm_order w' = [sample_fsm_order 1 (Some 100); fo]
       ∧ tbl_mail_message w' = cross_reference so fo).
Proof.
  intros so. split.
  - apply (find_fsm_order_reuses_or_creates sample_name so
             (sample_world [sample_fsm_order 1 None; sample_fsm_order 2 None])).
    vm_compute. discriminate.
  - apply (find_fsm_order_reuses_or_creates sample_name so
             (sample_world [sample_fsm_order 1 (Some 100)])).
    reflexivity.
Defined.

Lemma find_then_action_view_fsm_order_witness :
  let so := sample_order (contact false) [line_a] in
  ∃ fo w1,
    _field_find_fsm_order sample_name [so] (sample_world [])
    = (Ok {[so_id so := fo]}, w1)
    ∧ action_view_fsm_order sample_action sample_form [so] w1
      = (Ok (<["res_id" := A_int (fo_id fo)]>
               (<["views" := A_views [(sample_form, "form")]]> sample_action)),
         w1).
Proof.
  intros so.
  apply (find_then_action_view_fsm_order sample_name sample_action sample_form
           so (sample_world [])).
  intros fo Hfo. by apply elem_of_nil in Hfo.
Defined.

Lemma action_confirm_needs_location_witness :
  _action_confirm sample_confirm sample_generation
    (located_order [line_a]) (sample_world [])
  = (Ok true, sample_world [])
  ∧ is_Some (fsm_location_id (located_order [line_a])).
Proof.
  split; [reflexivity|].
  apply (action_confirm_needs_location bool sample_confirm sample_generation
           (located_order [line_a]) (sample_world []) (sample_world []) true).
  - reflexivity.
  - exists line_a. split; [apply list_elem_of_here|vm_compute; discriminate].
Defined.

Lemma action_confirm_runs_generation_witness :
  _action_confirm sample_confirm sample_generation
    (located_order [line_desk; line_a]) (sample_world [])
  = (Ok true, sample_world []).
Proof.
  apply (action_confirm_runs_generation bool sample_confirm sample_generation
           (located_order [line_desk; line_a]) location_of_company
           (sample_world []) (sample_world []) (sample_world []) true).
  - reflexivity.
  - exists line_a. split; [|vm_compute; discriminate].
    apply list_elem_of_further, list_elem_of_here.
  - reflexivity.
  - reflexivity.
Defined.

Lemma prepare_values_skips_line_witness :
  _field_create_fsm_order_prepare_values
    [with_lines (sample_order (contact false) []) [line_a; line_desk; line_b]]
  = _field_create_fsm_order_prepare_values
      [with_lines (sample_order (contact false) []) [line_a; line_b]].
Proof.
  apply (prepare_values_skips_line (sample_order (contact false) [])
           [line_a] [line_b] line_desk).
  vm_compute. discriminate.
Defined.

Lemma prepare_values_template_once_witness :
  _field_create_fsm_order_prepare_values
    [with_lines (sample_order (contact false) [])
       [line_a; line_b; line_a_again]]
  = _field_create_fsm_order_prepare_values
      [with_lines (sample_order (contact false) []) [line_a; line_b]].
Proof.
  apply (prepare_values_template_once (sample_order (contact false) [])
           [line_a; line_b] line_a_again).
  intros t [= <-]. vm_compute. apply list_elem_of_here.
Defined.

Lemma prepare_values_further_template_witness :
  ∃ v' : FsmOrderValues,
    _field_create_fsm_order_prepare_values
      [with_lines (sample_order (contact false) []) [line_a; line_b]] = Ok v'
    ∧ v_todo v' = "AB"
    ∧ v_scheduled_duration v' = 3.5%float
    ∧ v_category_ids v' = [Cmd_set [1; 2; 3]].
Proof.
  destruct (prepare_values_further_template
              (sample_order (contact false) []) [line_a] line_b
              product_b template_b
              {| v_location_id := None;
                 v_location_directions := None;
                 v_request_early := Some 1700000000;
                 v_scheduled_date_start := Some 1700000000;
                 v_todo := "A";
                 v_category_ids := [Cmd_set [1; 2]];
                 v_scheduled_duration := 1.5%float;
                 v_sale_id := 1;
                 v_company_id := Some 1 |} [1; 2])
    as (v' & Hrun & Htodo & Hhours & Hcats);
    try reflexivity.
  - vm_compute. intros H. apply list_elem_of_singleton in H. discriminate.
  - vm_compute. intros H. apply list_elem_of_singleton in H. discriminate.
  - exists v'. split; [exact Hrun|]. rewrite Htodo, Hhours, Hcats.
    vm_compute. repeat split.
Defined.
